(** * torch/_dynamo/codegen.py: the bytecode generator [PyCodegen]

    A shallow embedding of [PyCodegen] (the class that rebuilds traced values
    on the operand stack) together with the properties of its dispatcher
    [__call__], its cache, its graph-output table and its calling-convention
    helpers.

    Conventions of the embedding.
    - A Python object with identity ([VariableTracker], a proxy) carries a
      natural number standing for [id(obj)]; [is] compares these numbers.
    - Dictionaries keyed by tracked values ([tempvars], [uses]) and by proxy
      identities ([graph_outputs]) are [gmap nat _].
    - A method of [PyCodegen] is a function [PyCodegen -> Result A]: it
      returns normally ([Ok]) or raises ([Raise]); both carry the mutated
      session, since a Python exception does not roll back mutations.
    - [value.reconstruct(codegen)] is code outside this file that drives the
      session through the public methods of [PyCodegen]; it is embedded as a
      list of [CodegenOp], run by an interpreter with fuel. *)

From Stdlib Require Import ZArith Ascii String List Bool Lia.
From stdpp Require Import base option list gmap strings pretty.

(** ** Instructions *)

(** Python constants that reach [LOAD_CONST]. *)
Inductive PyConst : Type :=
  | PyNone
  | PyBool (b : bool)
  | PyInt (z : Z)
  | PyStr (s : string)
  | PyTuple (elts : list string)
  | PyObject (obj_id : nat).

Inductive ArgVal : Type :=
  | NameArg (name : string)
  | ConstArg (c : PyConst).

(** Modelled from the spec: the [Instruction] dataclass of
    [bytecode_transformation] is not in the file; the spec's data model gives
    it an opcode identifier, an optional raw argument and an optional
    symbolic argument value. *)
Record Instruction : Type := Build_Instruction {
  opname : string;
  arg : option nat;
  argval : option ArgVal
}.

(** Modelled from the spec: [create_instruction(name, arg=, argval=)] builds
    the record above from its three components. *)
Definition create_instruction (name : string) (a : option nat)
    (av : option ArgVal) : Instruction :=
  Build_Instruction name a av.

(** ** Exceptions and results *)

Inductive Exn : Type :=
  | NotImplementedError
  | AssertionError (msg : string)
  | AttributeError
  | KeyError
  | Unsupported (msg : string).

(** ** Tracked values, sources and the calls they make on the session *)

Inductive MutationType : Type :=
  | ValueMutationNew
  | ValueMutationExisting
  | AttributeMutationExisting
  | AttributeMutationNew.

(** The most-derived class of a tracked value, as far as the [isinstance]
    chain of the dispatcher tells classes apart.  [TensorWithTFOverrideVariable],
    [UnspecializedPythonVariable] and [NumpyNdarrayVariable] derive from
    [TensorVariable].  [as_tensor] is the memoised result of
    [value.as_tensor(tx, torch.float64)] of a [SymNodeVariable]; [T] is the
    type of tracked values. *)
Inductive VTClass (T : Type) : Type :=
  | FunctionDecoratedByContextlibContextManagerVariable
  | TensorWithTFOverrideVariable (global_mangled_class_name : string)
  | SymNodeVariable (python_type_is_float : bool) (as_tensor : T)
  | TensorVariable
  | UnspecializedPythonVariable (need_unwrap : bool)
  | NumpyNdarrayVariable
  | NNModuleVariable (module_key : string)
  | OtherVariable.

Arguments FunctionDecoratedByContextlibContextManagerVariable {T}.
Arguments TensorWithTFOverrideVariable {T} _.
Arguments SymNodeVariable {T} _ _.
Arguments TensorVariable {T}.
Arguments UnspecializedPythonVariable {T} _.
Arguments NumpyNdarrayVariable {T}.
Arguments NNModuleVariable {T} _.
Arguments OtherVariable {T}.

#[local] Unset Elimination Schemes.

Inductive Source : Type :=
  | Build_Source
      (source_key : nat)
      (source_repr : string)
      (source_reconstruct : list CodegenOp)
      (source_reconstruct_returns_none : bool)
with VariableTracker : Type :=
  | Build_VariableTracker
      (vt_id : nat)
      (vt_repr : string)
      (vt_class : VTClass VariableTracker)
      (vt_source : option Source)
      (vt_mutation_type : option MutationType)
      (vt_python_constant : option PyConst)
      (vt_proxy_id : nat)
      (vt_reconstruct : list CodegenOp)
      (vt_reconstruct_returns_none : bool)
with CodegenOp : Type :=
  | OpCall (value : Source + VariableTracker) (allow_cache : bool)
  | OpForeach (items : list (Source + VariableTracker))
  | OpRestoreStack (stack_values : list (Source + VariableTracker))
      (value_from_source : bool)
  | OpAddPushNull (gen_fn : list CodegenOp) (call_function_ex : bool)
  | OpClearTos
  | OpAppendOutput (inst : Instruction)
  | OpExtendOutput (insts : list Instruction)
  | OpLoadImportFrom (module_name object_name : string)
  | OpLoadAttr (name : string)
  | OpStore (varname : string)
  | OpDupTop
  | OpPopTop
  | OpCallFunction (nargs : nat) (push_null : bool)
  | OpRaise (e : Exn).

#[local] Set Elimination Schemes.

Definition source_key (s : Source) : nat :=
  match s with Build_Source k _ _ _ => k end.
Definition source_repr (s : Source) : string :=
  match s with Build_Source _ r _ _ => r end.
Definition source_reconstruct (s : Source) : list CodegenOp :=
  match s with Build_Source _ _ ops _ => ops end.
Definition source_reconstruct_returns_none (s : Source) : bool :=
  match s with Build_Source _ _ _ b => b end.

Definition vt_id (v : VariableTracker) : nat :=
  match v with Build_VariableTracker i _ _ _ _ _ _ _ _ => i end.
Definition vt_repr (v : VariableTracker) : string :=
  match v with Build_VariableTracker _ r _ _ _ _ _ _ _ => r end.
Definition vt_class (v : VariableTracker) : VTClass VariableTracker :=
  match v with Build_VariableTracker _ _ c _ _ _ _ _ _ => c end.
Definition vt_source (v : VariableTracker) : option Source :=
  match v with Build_VariableTracker _ _ _ s _ _ _ _ _ => s end.
Definition vt_mutation_type (v : VariableTracker) : option MutationType :=
  match v with Build_VariableTracker _ _ _ _ m _ _ _ _ => m end.
Definition vt_python_constant (v : VariableTracker) : option PyConst :=
  match v with Build_VariableTracker _ _ _ _ _ c _ _ _ => c end.
Definition vt_proxy_id (v : VariableTracker) : nat :=
  match v with Build_VariableTracker _ _ _ _ _ _ p _ _ => p end.
Definition vt_reconstruct (v : VariableTracker) : list CodegenOp :=
  match v with Build_VariableTracker _ _ _ _ _ _ _ ops _ => ops end.
Definition vt_reconstruct_returns_none (v : VariableTracker) : bool :=
  match v with Build_VariableTracker _ _ _ _ _ _ _ _ b => b end.

(** ** The session *)

Record GraphOutputEntry : Type := Build_GraphOutputEntry {
  index : nat;
  variable : VariableTracker
}.

Record CodeOptions : Type := Build_CodeOptions {
  co_varnames : list string;
  co_names : list string
}.

Record PyCodegen : Type := Build_PyCodegen {
  root : option PyConst;
  top_of_stack : option nat;
  uses : gmap nat nat;
  graph_outputs : gmap nat GraphOutputEntry;
  _output : list Instruction;
  tempvars : gmap nat (option string);
  graph_output_var : option string;
  code_options : CodeOptions;
  unique_var_id : nat;
  value_from_source : bool;
  overridden_sources : gmap nat Source
}.

Definition set_top_of_stack (tos : option nat) (cg : PyCodegen) : PyCodegen :=
  Build_PyCodegen (root cg) tos (uses cg) (graph_outputs cg) (_output cg)
    (tempvars cg) (graph_output_var cg) (code_options cg) (unique_var_id cg)
    (value_from_source cg) (overridden_sources cg).

Definition set_uses (u : gmap nat nat) (cg : PyCodegen) : PyCodegen :=
  Build_PyCodegen (root cg) (top_of_stack cg) u (graph_outputs cg) (_output cg)
    (tempvars cg) (graph_output_var cg) (code_options cg) (unique_var_id cg)
    (value_from_source cg) (overridden_sources cg).

Definition set_graph_outputs (g : gmap nat GraphOutputEntry) (cg : PyCodegen)
    : PyCodegen :=
  Build_PyCodegen (root cg) (top_of_stack cg) (uses cg) g (_output cg)
    (tempvars cg) (graph_output_var cg) (code_options cg) (unique_var_id cg)
    (value_from_source cg) (overridden_sources cg).

Definition set_output (out : list Instruction) (cg : PyCodegen) : PyCodegen :=
  Build_PyCodegen (root cg) (top_of_stack cg) (uses cg) (graph_outputs cg) out
    (tempvars cg) (graph_output_var cg) (code_options cg) (unique_var_id cg)
    (value_from_source cg) (overridden_sources cg).

Definition set_tempvars (t : gmap nat (option string)) (cg : PyCodegen)
    : PyCodegen :=
  Build_PyCodegen (root cg) (top_of_stack cg) (uses cg) (graph_outputs cg)
    (_output cg) t (graph_output_var cg) (code_options cg) (unique_var_id cg)
    (value_from_source cg) (overridden_sources cg).

Definition set_code_options (co : CodeOptions) (cg : PyCodegen) : PyCodegen :=
  Build_PyCodegen (root cg) (top_of_stack cg) (uses cg) (graph_outputs cg)
    (_output cg) (tempvars cg) (graph_output_var cg) co (unique_var_id cg)
    (value_from_source cg) (overridden_sources cg).

Definition set_unique_var_id (n : nat) (cg : PyCodegen) : PyCodegen :=
  Build_PyCodegen (root cg) (top_of_stack cg) (uses cg) (graph_outputs cg)
    (_output cg) (tempvars cg) (graph_output_var cg) (code_options cg) n
    (value_from_source cg) (overridden_sources cg).

Definition set_value_from_source (b : bool) (cg : PyCodegen) : PyCodegen :=
  Build_PyCodegen (root cg) (top_of_stack cg) (uses cg) (graph_outputs cg)
    (_output cg) (tempvars cg) (graph_output_var cg) (code_options cg)
    (unique_var_id cg) b (overridden_sources cg).

(** ** The monad of methods *)

Inductive Result (A : Type) : Type :=
  | Ok (a : A) (cg : PyCodegen)
  | Raise (e : Exn) (cg : PyCodegen)
  | OutOfFuel.

Arguments Ok {A} _ _.
Arguments Raise {A} _ _.
Arguments OutOfFuel {A}.

Definition M (A : Type) : Type := PyCodegen -> Result A.

Definition ret {A : Type} (a : A) : M A := fun cg => Ok a cg.

Definition bind {A B : Type} (m : M A) (k : A -> M B) : M B :=
  fun cg =>
    match m cg with
    | Ok a cg' => k a cg'
    | Raise e cg' => Raise e cg'
    | OutOfFuel => OutOfFuel
    end.

Definition raise {A : Type} (e : Exn) : M A := fun cg => Raise e cg.

Definition get : M PyCodegen := fun cg => Ok cg cg.

Definition modify (f : PyCodegen -> PyCodegen) : M unit :=
  fun cg => Ok tt (f cg).

(** [assert cond, msg] *)
Definition assert (cond : bool) (msg : string) : M unit :=
  if cond then ret tt else raise (AssertionError msg).

(** [try: body  except NotImplementedError: handler] *)
Definition try_except_NotImplementedError {A : Type} (body handler : M A)
    : M A :=
  fun cg =>
    match body cg with
    | Raise NotImplementedError cg' => handler cg'
    | r => r
    end.

(** [try: body  finally: final] where [final] cannot raise. *)
Definition try_finally {A : Type} (body : M A) (final : PyCodegen -> PyCodegen)
    : M A :=
  fun cg =>
    match body cg with
    | Ok a cg' => Ok a (final cg')
    | Raise e cg' => Raise e (final cg')
    | OutOfFuel => OutOfFuel
    end.

Declare Scope codegen_scope.
Delimit Scope codegen_scope with codegen.
Notation "'let*' x := m 'in' k" := (bind m (fun x => k))
  (at level 10, x name, m at level 100, k at level 200) : codegen_scope.
Notation "m1 >> m2" := (bind m1 (fun _ => m2))
  (at level 100, m2 at level 200, right associativity) : codegen_scope.

Open Scope codegen_scope.

(** ** What the file imports

    The helpers below are imported by codegen.py from modules that are not
    part of this development ([bytecode_transformation], [utils], [sys]) or
    are reached through [self.tx]; the file reads them through this
    interface.  [create_rot_n] answers [None] where the helper raises
    [AttributeError], the one exception of a helper the file catches. *)
Class Environment : Type := Build_Environment {
  sys_version_info : nat * nat;
  create_dup_top : Instruction;
  bytecode_create_load_const : PyConst -> bool -> Instruction;
  create_call_function : nat -> bool -> list Instruction;
  create_rot_n : nat -> option (list Instruction);
  bytecode_add_push_null : list Instruction -> list Instruction;
  add_push_null_call_function_ex : list Instruction -> list Instruction;
  is_safe_constant : PyConst -> bool;
  rot_n_helper : nat -> PyConst;
  (** [self.tx.export] *)
  tx_export : bool;
  (** [AttrSource(self.tx.import_source(module_name), object_name)] *)
  tx_import_attr_source : string -> string -> Source;
  (** [self.tx.output.update_co_names(name)] acting on the code options *)
  update_co_names : string -> CodeOptions -> CodeOptions;
  (** [self.tx.output.new_var()]: the name, the advanced counter and the code
      options in which the name is registered *)
  new_var : nat -> CodeOptions -> string * nat * CodeOptions
}.

(** Tuple comparison [sys.version_info < (major, minor)]. *)
Definition version_lt (v w : nat * nat) : bool :=
  Nat.ltb (fst v) (fst w)
  || (Nat.eqb (fst v) (fst w) && Nat.ltb (snd v) (snd w)).

(** Tuple comparison [sys.version_info >= (major, minor)]. *)
Definition version_ge (v w : nat * nat) : bool := negb (version_lt v w).

(** [str.split(".")]: the result is never empty, so it is returned as
    [(parts[0], parts[1:])]. *)
Fixpoint split_dot (s : string) : string * list string :=
  match s with
  | EmptyString => ("", [])
  | String c rest =>
      let '(part, parts) := split_dot rest in
      if Ascii.eqb c "."%char then ("", part :: parts)
      else (String c part, parts)
  end.

(** [isinstance(value.mutation_type, ValueMutationExisting)] *)
Definition is_ValueMutationExisting (m : option MutationType) : bool :=
  match m with Some ValueMutationExisting => true | _ => false end.

(** [isinstance(value, FunctionDecoratedByContextlibContextManagerVariable)] *)
Definition is_FunctionDecoratedByContextlibContextManagerVariable
    (v : VariableTracker) : bool :=
  match vt_class v with
  | FunctionDecoratedByContextlibContextManagerVariable => true
  | _ => false
  end.

(** [self.top_of_stack is value] *)
Definition top_of_stack_is (cg : PyCodegen) (value : VariableTracker) : bool :=
  bool_decide (top_of_stack cg = Some (vt_id value)).

(** [self.tempvars.get(value)] *)
Definition tempvars_get (cg : PyCodegen) (value : VariableTracker)
    : option string :=
  match tempvars cg !! vt_id value with
  | Some (Some name) => Some name
  | _ => None
  end.

(** [value in self.tempvars] *)
Definition in_tempvars (cg : PyCodegen) (value : VariableTracker) : bool :=
  bool_decide (is_Some (tempvars cg !! vt_id value)).

(** [repr] of the argument of [__call__], for messages. *)
Definition value_repr (value : Source + VariableTracker) : string :=
  match value with inl s => source_repr s | inr v => vt_repr v end.

(** Modelled from the spec: [exc.unimplemented(msg)] is not in the file; it is
    the failure with "a distinguishable cannot-reconstruct signal" that
    carries the message. *)
Definition unimplemented {A : Type} (msg : string) : M A :=
  raise (Unsupported msg).

Section Methods.

Context {env : Environment}.

(** ** Methods that do not call back into the dispatcher *)

Definition clear_tos : M unit := modify (set_top_of_stack None).

(** [self._output.append(inst)], which leaves [top_of_stack] alone. *)
Definition output_append (inst : Instruction) : M unit :=
  modify (fun cg => set_output (_output cg ++ [inst]) cg).

(** [self._output.extend(insts)] *)
Definition output_extend (insts : list Instruction) : M unit :=
  modify (fun cg => set_output (_output cg ++ insts) cg).

Definition append_output (inst : Instruction) : M unit :=
  output_append inst >> clear_tos.

Definition extend_output (insts : list Instruction) : M unit :=
  output_extend insts >> clear_tos.

Definition get_instructions : M (list Instruction) :=
  let* cg := get in ret (_output cg).

Definition create_load (name : string) : M Instruction :=
  let* cg := get in
  assert (bool_decide (name ∈ co_varnames (code_options cg)))
         (name +:+ " missing") >>
  ret (create_instruction "LOAD_FAST" None (Some (NameArg name))).

Definition create_store (name : string) : M Instruction :=
  let* cg := get in
  assert (bool_decide (name ∈ co_varnames (code_options cg)))
         (name +:+ " missing") >>
  ret (create_instruction "STORE_FAST" None (Some (NameArg name))).

Definition create_load_global (name : string) (add : bool) : M Instruction :=
  (if add
   then modify (fun cg => set_code_options
                            (update_co_names name (code_options cg)) cg)
   else ret tt) >>
  let* cg := get in
  assert (bool_decide (name ∈ co_names (code_options cg)))
         (name +:+ " not in co_names") >>
  ret (create_instruction "LOAD_GLOBAL" None (Some (NameArg name))).

Definition create_load_const (value : PyConst) : M Instruction :=
  ret (bytecode_create_load_const value true).

Definition create_load_const_unchecked (value : PyConst) : M Instruction :=
  ret (bytecode_create_load_const value false).

Definition create_load_attr (name : string) : M Instruction :=
  let* cg := get in
  (if bool_decide (name ∈ co_names (code_options cg))
   then ret tt
   else modify (set_code_options
                  (Build_CodeOptions (co_varnames (code_options cg))
                     (co_names (code_options cg) ++ [name])))) >>
  ret (create_instruction "LOAD_ATTR" None (Some (NameArg name))).

Definition load_attr (name : string) : M unit :=
  let* inst := create_load_attr name in append_output inst.

Definition pop_top : M unit :=
  append_output (create_instruction "POP_TOP" None None).

Definition call_function (nargs : nat) (push_null : bool) : M unit :=
  extend_output (create_call_function nargs push_null).

Definition dup_top : M unit := append_output create_dup_top.

Definition store (varname : string) : M unit :=
  let* inst := create_store varname in append_output inst.

Definition add_graph_output (value : VariableTracker) : M nat :=
  let graph_outputs_key := vt_proxy_id value in
  let* cg := get in
  (if bool_decide (is_Some (graph_outputs cg !! graph_outputs_key))
   then ret tt
   else modify (set_graph_outputs
                  (<[graph_outputs_key :=
                       Build_GraphOutputEntry (size (graph_outputs cg)) value]>
                     (graph_outputs cg)))) >>
  ret graph_outputs_key.

Definition load_graph_output (index : nat) : M unit :=
  let* cg := get in
  let* inst := match graph_output_var cg with
               | Some name => create_load name
               | None => raise (AssertionError "None missing")
               end in
  output_append inst >>
  let* inst := create_load_const (PyInt (Z.of_nat index)) in
  output_append inst >>
  output_append (create_instruction "BINARY_SUBSCR" None None).

(** [graph_outputs[graph_outputs_key].index] *)
Definition graph_outputs_index (graph_outputs_key : nat) : M nat :=
  let* cg := get in
  match graph_outputs cg !! graph_outputs_key with
  | Some entry => ret (index entry)
  | None => raise KeyError
  end.

Definition add_cache (value : VariableTracker) : M unit :=
  let* cg := get in
  let '(var, counter, co) := new_var (unique_var_id cg) (code_options cg) in
  modify (fun cg => set_code_options co (set_unique_var_id counter cg)) >>
  modify (fun cg => set_tempvars (<[vt_id value := Some var]> (tempvars cg)) cg) >>
  let* inst := create_store var in
  output_append inst.

Definition rot_n (n : nat) : M (list Instruction) :=
  match create_rot_n n with
  | Some insts => ret insts
  | None =>
      let* helper := create_load_const_unchecked (rot_n_helper n) in
      match create_rot_n 2 with
      | Some rot_two =>
          ret ([create_instruction "BUILD_TUPLE" (Some n) None; helper]
               ++ rot_two
               ++ [create_instruction "CALL_FUNCTION_EX" (Some 0) None;
                   create_instruction "UNPACK_SEQUENCE" (Some n) None])
      | None => raise AttributeError
      end
  end.

End Methods.

(** ** The dispatcher and the methods that call it

    [__call__], [call_reconstruct], [add_push_null], [foreach],
    [restore_stack] and [load_import_from] call each other; a reconstruction
    routine calls back into all of them.  They are written over [exec], the
    interpreter of one call on the session with the fuel that is left, and
    the knot is tied by [exec] below. *)
Section Dispatcher.

Context {env : Environment}.
Variable exec : CodegenOp -> M unit.

(** [self(value, allow_cache)] issued from inside the class. *)
Definition self_call (value : Source + VariableTracker) (allow_cache : bool)
    : M unit :=
  exec (OpCall value allow_cache).

(** The body of a [reconstruct] method: its calls on [codegen], in order. *)
Fixpoint run_ops (ops : list CodegenOp) : M unit :=
  match ops with
  | [] => ret tt
  | op :: ops => exec op >> run_ops ops
  end.

Definition call_reconstruct (value : Source + VariableTracker) : M unit :=
  match value with
  | inl s =>
      run_ops (source_reconstruct s) >>
      assert (source_reconstruct_returns_none s)
             ("reconstruct!=None " +:+ source_repr s)
  | inr v =>
      run_ops (vt_reconstruct v) >>
      assert (vt_reconstruct_returns_none v)
             ("reconstruct!=None " +:+ vt_repr v)
  end.

Definition add_push_null (gen_fn : M unit) (call_function_ex : bool) : M unit :=
  let* cg := get in
  let old_len := length (_output cg) in
  (if version_lt sys_version_info (3, 13) then clear_tos else ret tt) >>
  gen_fn >>
  let* cg := get in
  let added_insts := drop old_len (_output cg) in
  modify (fun cg => set_output (take old_len (_output cg)) cg) >>
  (if call_function_ex
   then output_extend (add_push_null_call_function_ex added_insts)
   else output_extend (bytecode_add_push_null added_insts)) >>
  (if version_ge sys_version_info (3, 13) then clear_tos else ret tt).

Definition load_import_from (module_name object_name : string) : M unit :=
  self_call (inl (tx_import_attr_source module_name object_name)) true.

Fixpoint foreach (items : list (Source + VariableTracker)) : M unit :=
  match items with
  | [] => ret tt
  | i :: items => self_call i true >> foreach items
  end.

Definition restore_stack (stack_values : list (Source + VariableTracker))
    (value_from_source_arg : bool) : M unit :=
  let* cg := get in
  let prev := value_from_source cg in
  modify (set_value_from_source (prev && value_from_source_arg)) >>
  try_finally (foreach stack_values) (set_value_from_source prev).

(** Lines 164-190: [Some value.source] when the dispatcher generates the value
    from its source. *)
Definition source_for_codegen (cg : PyCodegen) (value : VariableTracker)
    (allow_cache : bool) : option Source :=
  match vt_source value with
  | Some source =>
      if allow_cache
         && negb (is_FunctionDecoratedByContextlibContextManagerVariable value)
      then
        if is_ValueMutationExisting (vt_mutation_type value)
           || value_from_source cg
        then Some source
        else None
      else None
  | None => None
  end.

(** [value.is_python_constant() and is_safe_constant(value.as_python_constant())] *)
Definition safe_python_constant (value : VariableTracker) : option PyConst :=
  match vt_python_constant value with
  | Some c => if is_safe_constant c then Some c else None
  | None => None
  end.

(** Lines 239-256: the branch of [TensorVariable], [SymNodeVariable],
    [UnspecializedPythonVariable] and [NumpyNdarrayVariable]. *)
Definition codegen_graph_output_value (value : VariableTracker) : M unit :=
  let* graph_outputs_key := add_graph_output value in
  match vt_class value with
  | NumpyNdarrayVariable =>
      add_push_null
        (load_import_from "torch._dynamo.utils" "to_numpy_helper") false >>
      (let* i := graph_outputs_index graph_outputs_key in load_graph_output i) >>
      output_extend (create_call_function 1 false)
  | UnspecializedPythonVariable true =>
      let gen_fn :=
        (let* i := graph_outputs_index graph_outputs_key in load_graph_output i) >>
        let* inst := create_load_attr "item" in
        output_append inst in
      add_push_null gen_fn false >>
      output_extend (create_call_function 0 false)
  | _ =>
      let* i := graph_outputs_index graph_outputs_key in load_graph_output i
  end.

(** Lines 268-275: the last branch, structural reconstruction. *)
Definition codegen_reconstruct (value : VariableTracker) (allow_cache : bool)
    : M unit :=
  modify (fun cg =>
            set_uses (<[vt_id value :=
                          S (default 0 (uses cg !! vt_id value))]> (uses cg))
                     cg) >>
  try_except_NotImplementedError
    (call_reconstruct (inr value))
    (unimplemented ("reconstruct: " +:+ vt_repr value)) >>
  let* cg := get in
  if allow_cache && in_tempvars cg value
  then output_append create_dup_top >> add_cache value
  else ret tt.

(** Lines 193-275: the [if]/[elif] chain over the kind of the value. *)
Definition codegen_by_kind (value : VariableTracker) (allow_cache : bool)
    : M unit :=
  match safe_python_constant value with
  | Some c => let* inst := create_load_const c in output_append inst
  | None =>
      match vt_class value with
      | TensorWithTFOverrideVariable global_mangled_class_name =>
          let* graph_outputs_key := add_graph_output value in
          add_push_null
            (load_import_from "torch._dynamo.utils" "to_subclass") false >>
          (let* i := graph_outputs_index graph_outputs_key in
           load_graph_output i) >>
          (let* inst := create_load_global global_mangled_class_name true in
           output_append inst) >>
          output_extend (create_call_function 2 false)
      | SymNodeVariable true as_tensor =>
          if negb tx_export
          then
            let* graph_outputs_key := add_graph_output as_tensor in
            let gen_fn :=
              (let* i := graph_outputs_index graph_outputs_key in
               load_graph_output i) >>
              let* inst := create_load_attr "item" in
              output_append inst in
            add_push_null gen_fn false >>
            output_extend (create_call_function 0 false)
          else codegen_graph_output_value value
      | SymNodeVariable false _
      | TensorVariable
      | UnspecializedPythonVariable _
      | NumpyNdarrayVariable => codegen_graph_output_value value
      | NNModuleVariable module_key =>
          let '(first, rest) := split_dot module_key in
          let* cg := get in
          let* parts :=
            if bool_decide (first ∈ co_varnames (code_options cg))
            then
              (let* inst := create_load first in output_append inst) >>
              ret rest
            else
              match root cg with
              | Some root =>
                  (let* inst := create_load_const_unchecked root in
                   output_append inst) >>
                  ret (first :: rest)
              | None => raise (AssertionError "")
              end in
          (fix attrs (parts : list string) : M unit :=
             match parts with
             | [] => ret tt
             | part :: parts =>
                 (let* inst := create_load_attr part in output_append inst) >>
                 attrs parts
             end) parts
      | FunctionDecoratedByContextlibContextManagerVariable
      | OtherVariable => codegen_reconstruct value allow_cache
      end
  end.

Definition __call__ (value : Source + VariableTracker) (allow_cache : bool)
    : M unit :=
  match value with
  | inl value =>
      let* cg := get in
      let source :=
        default value (overridden_sources cg !! source_key value) in
      call_reconstruct (inl source) >>
      clear_tos
  | inr value =>
      let* cg := get in
      if allow_cache && top_of_stack_is cg value
      then output_append create_dup_top
      else
        match (if allow_cache then tempvars_get cg value else None) with
        | Some name =>
            (let* inst := create_load name in output_append inst) >>
            modify (set_top_of_stack (Some (vt_id value)))
        | None =>
            match source_for_codegen cg value allow_cache with
            | Some source => self_call (inl source) true
            | None =>
                codegen_by_kind value allow_cache >>
                modify (set_top_of_stack (Some (vt_id value)))
            end
        end
  end.

(** One call of a reconstruction routine on [codegen]. *)
Definition step (op : CodegenOp) : M unit :=
  match op with
  | OpCall value allow_cache => __call__ value allow_cache
  | OpForeach items => foreach items
  | OpRestoreStack stack_values value_from_source_arg =>
      restore_stack stack_values value_from_source_arg
  | OpAddPushNull gen_fn call_function_ex =>
      add_push_null (run_ops gen_fn) call_function_ex
  | OpClearTos => clear_tos
  | OpAppendOutput inst => append_output inst
  | OpExtendOutput insts => extend_output insts
  | OpLoadImportFrom module_name object_name =>
      load_import_from module_name object_name
  | OpLoadAttr name => load_attr name
  | OpStore varname => store varname
  | OpDupTop => dup_top
  | OpPopTop => pop_top
  | OpCallFunction nargs push_null => call_function nargs push_null
  | OpRaise e => raise e
  end.

End Dispatcher.

(** The interpreter: every call on the session spends one unit of fuel. *)
Fixpoint exec `{env : Environment} (fuel : nat) (op : CodegenOp) : M unit :=
  match fuel with
  | 0 => fun _ => OutOfFuel
  | S fuel => step (exec fuel) op
  end.

(** ** The null placeholder of the calling convention *)

Inductive Generation : Type :=
  | GenerationA
  | GenerationB
  | GenerationC.

(** Generation A is Python before 3.11, B is 3.11 and 3.12, C is 3.13 on. *)
Definition generation (v : nat * nat) : Generation :=
  if version_ge v (3, 13) then GenerationC
  else if version_ge v (3, 11) then GenerationB
  else GenerationA.

Definition push_null_instruction : Instruction :=
  create_instruction "PUSH_NULL" None None.

(** Modelled from the spec: [bytecode_transformation.add_push_null] is not in
    the file.  The spec has it splice a null-placeholder push before the
    instructions on Generation B and after them on Generation C, with no
    placeholder on Generation A, and prefer the embedded null-push bit of the
    callable-loading instruction when it has one.  [embed_null_bit] is the
    opcode table's part: it answers the instructions with that bit set, or
    [None] when the callable-loading instruction has no such bit. *)
Definition spec_add_push_null
    (embed_null_bit : list Instruction -> option (list Instruction))
    (g : Generation) (insts : list Instruction) : list Instruction :=
  match g with
  | GenerationA => insts
  | GenerationB =>
      match embed_null_bit insts with
      | Some insts' => insts'
      | None => push_null_instruction :: insts
      end
  | GenerationC =>
      match embed_null_bit insts with
      | Some insts' => insts'
      | None => insts ++ [push_null_instruction]
      end
  end.

(** ** Invariants of a session *)

(** The graph-output table numbers its keys 0, 1, ..., size - 1: every index
    is below the size and no two keys share one. *)
Definition graph_outputs_wf (g : gmap nat GraphOutputEntry) : Prop :=
  (∀ k e, g !! k = Some e → index e < size g)
  ∧ (∀ k1 k2 e1 e2,
       g !! k1 = Some e1 → g !! k2 = Some e2 → index e1 = index e2 → k1 = k2).

(** What a call on the session may change: instructions are appended, graph
    outputs and temp-variable keys are added, and the configuration of the
    session stays. *)
Record session_le (cg cg' : PyCodegen) : Prop := Build_session_le {
  le_output : _output cg `prefix_of` _output cg';
  le_graph_outputs : graph_outputs cg ⊆ graph_outputs cg';
  le_graph_outputs_wf :
    graph_outputs_wf (graph_outputs cg) → graph_outputs_wf (graph_outputs cg');
  le_tempvars : ∀ k, is_Some (tempvars cg !! k) → is_Some (tempvars cg' !! k);
  le_value_from_source : value_from_source cg' = value_from_source cg;
  le_overridden_sources : overridden_sources cg' = overridden_sources cg;
  le_graph_output_var : graph_output_var cg' = graph_output_var cg;
  le_root : root cg' = root cg
}.

(** A method keeps [session_le] whether it returns or raises. *)
Definition preserves {A : Type} (m : M A) : Prop :=
  ∀ cg,
    match m cg with
    | Ok _ cg' | Raise _ cg' => session_le cg cg'
    | OutOfFuel => True
    end.

(** ** A concrete environment and session, to run the definitions *)

Definition in_names (name : string) (names : list string) : bool :=
  bool_decide (name ∈ names).

(** Helpers in the style of CPython [version]: [COPY 1] duplicates the top
    from 3.11 on, rotation is a chain of [SWAP]s from 3.11 on and a [ROT_*]
    instruction before, which does not exist at depth 4 before 3.8 nor at
    depth 5 and more before 3.10. *)
Definition example_env (version : nat * nat) : Environment := {|
  sys_version_info := version;
  create_dup_top :=
    if version_ge version (3, 11)
    then create_instruction "COPY" (Some 1) None
    else create_instruction "DUP_TOP" None None;
  bytecode_create_load_const c _ :=
    create_instruction "LOAD_CONST" None (Some (ConstArg c));
  create_call_function nargs _ :=
    [create_instruction
       (if version_ge version (3, 11) then "CALL" else "CALL_FUNCTION")
       (Some nargs) None];
  create_rot_n n :=
    if n <=? 1 then Some []
    else if version_ge version (3, 11)
    then Some (map (fun i => create_instruction "SWAP" (Some i) None)
                   (rev (seq 2 (n - 1))))
    else if (4 <=? n) && version_lt version (3, 8) then None
    else if (5 <=? n) && version_lt version (3, 10) then None
    else Some [match n with
               | 2 => create_instruction "ROT_TWO" None None
               | 3 => create_instruction "ROT_THREE" None None
               | 4 => create_instruction "ROT_FOUR" None None
               | _ => create_instruction "ROT_N" (Some n) None
               end];
  bytecode_add_push_null :=
    spec_add_push_null (fun _ => None) (generation version);
  add_push_null_call_function_ex :=
    spec_add_push_null (fun _ => None) (generation version);
  is_safe_constant c := match c with PyObject _ => false | _ => true end;
  rot_n_helper n := PyObject (1000 + n);
  tx_export := false;
  tx_import_attr_source module_name object_name :=
    Build_Source 0 (module_name +:+ "." +:+ object_name)
      [OpAppendOutput
         (create_instruction "LOAD_GLOBAL" None (Some (NameArg module_name)));
       OpLoadAttr object_name]
      true;
  update_co_names name co :=
    if in_names name (co_names co) then co
    else Build_CodeOptions (co_varnames co) (co_names co ++ [name]);
  new_var counter co :=
    let var := "tmp_" +:+ pretty counter in
    (var, S counter, Build_CodeOptions (co_varnames co ++ [var]) (co_names co))
|}.

(** The local [x], a source. *)
Definition example_source : Source :=
  Build_Source 1 "LocalSource(x)"
    [OpAppendOutput (create_instruction "LOAD_FAST" None (Some (NameArg "x")))]
    true.

(** A list built from nothing, with no source: a structural value. *)
Definition example_list : VariableTracker :=
  Build_VariableTracker 10 "ListVariable()" OtherVariable None None None 0
    [OpAppendOutput (create_instruction "BUILD_LIST" (Some 0) None)] true.

(** The same list, read from the local [x] and mutated since. *)
Definition example_mutated_list : VariableTracker :=
  Build_VariableTracker 11 "ListVariable()" OtherVariable
    (Some example_source) (Some ValueMutationExisting) None 0
    [OpAppendOutput (create_instruction "BUILD_LIST" (Some 0) None)] true.

(** A context-manager-decorated function read from the local [x]. *)
Definition example_decorated : VariableTracker :=
  Build_VariableTracker 12 "FunctionDecoratedByContextlibContextManagerVariable()"
    FunctionDecoratedByContextlibContextManagerVariable
    (Some example_source) (Some ValueMutationExisting) None 0
    [OpAppendOutput (create_instruction "LOAD_DEREF" None (Some (NameArg "f")))]
    true.

(** An input tensor, read from the local [x] and not mutated. *)
Definition example_input_tensor : VariableTracker :=
  Build_VariableTracker 14 "TensorVariable()" TensorVariable
    (Some example_source) None None 3 [] true.

(** A value whose class has no reconstruction. *)
Definition example_unsupported : VariableTracker :=
  Build_VariableTracker 13 "UserDefinedObjectVariable()" OtherVariable
    None None None 0 [OpRaise NotImplementedError] true.

Definition example_tensor (id proxy : nat) : VariableTracker :=
  Build_VariableTracker id "TensorVariable()" TensorVariable None None None
    proxy [] true.

(** A fresh session, as [__init__] leaves it, over the locals [x] and
    [graph_out_0]. *)
Definition example_session : PyCodegen := {|
  root := None;
  top_of_stack := None;
  uses := ∅;
  graph_outputs := ∅;
  _output := [];
  tempvars := ∅;
  graph_output_var := Some "graph_out_0";
  code_options := Build_CodeOptions ["x"; "graph_out_0"] [];
  unique_var_id := 0;
  value_from_source := true;
  overridden_sources := ∅
|}.

(** ** The remaining methods of [PyCodegen] *)

(** A list comprehension [[f(x) for x in l]] whose body acts on the session. *)
Fixpoint mapM {A B : Type} (f : A → M B) (l : list A) : M (list B) :=
  match l with
  | [] => ret []
  | x :: l => let* y := f x in let* ys := mapM f l in ret (y :: ys)
  end.

(** [names.split(".")] as a list. *)
Definition split_dot_list (names : string) : list string :=
  let '(first, rest) := split_dot names in first :: rest.

(** [".".join(parts)] *)
Fixpoint join_dot (parts : list string) : string :=
  match parts with
  | [] => ""
  | [part] => part
  | part :: parts => part +:+ "." +:+ join_dot parts
  end.

(** [co_names] after [if name not in co_names: co_names += (name,)]. *)
Definition add_co_name (name : string) (co : CodeOptions) : CodeOptions :=
  if bool_decide (name ∈ co_names co) then co
  else Build_CodeOptions (co_varnames co) (co_names co ++ [name]).

(** The attribute instruction of [create_load_attr]. *)
Definition load_attr_instruction (name : string) : Instruction :=
  create_instruction "LOAD_ATTR" None (Some (NameArg name)).

(** [l[i]], [l[i] = x] and [l.insert(i, x)] of a Python list, with negative
    indices counted from the end.  The first two answer [None] where Python
    raises [IndexError]; [insert] clamps the index instead. *)
Definition py_index (len : nat) (i : Z) : option nat :=
  let j := if (i <? 0)%Z then (i + Z.of_nat len)%Z else i in
  if (j <? 0)%Z || (Z.of_nat len <=? j)%Z then None else Some (Z.to_nat j).

Definition py_getitem {A : Type} (l : list A) (i : Z) : option A :=
  match py_index (length l) i with
  | Some j => l !! j
  | None => None
  end.

Definition py_setitem {A : Type} (l : list A) (i : Z) (x : A)
    : option (list A) :=
  match py_index (length l) i with
  | Some j => Some (<[j := x]> l)
  | None => None
  end.

Definition py_insert {A : Type} (l : list A) (i : Z) (x : A) : list A :=
  let n := Z.of_nat (length l) in
  let j := if (i <? 0)%Z then Z.max 0 (i + n) else Z.min i n in
  take (Z.to_nat j) l ++ x :: drop (Z.to_nat j) l.

(** What [create_call_function_kw] answers: the instructions, or the
    [AssertionError] of its [assert], or the [IndexError] of a subscript. *)
Inductive KwResult : Type :=
  | KwOk (insts : list Instruction)
  | KwAssertionError
  | KwIndexError.

(** The characters that the pattern [[^a-zA-Z0-9_]] does not match. *)
Definition is_word_char (c : ascii) : bool :=
  let n := nat_of_ascii c in
  ((97 <=? n) && (n <=? 122)) || ((65 <=? n) && (n <=? 90))
  || ((48 <=? n) && (n <=? 57)) || (n =? 95).

(** [re.sub(r"[^a-zA-Z0-9_]+", "_", name)]: every maximal run of other
    characters becomes one underscore.  [in_run] tells that the character
    before was already replaced. *)
Fixpoint sub_non_word (in_run : bool) (name : string) : string :=
  match name with
  | EmptyString => EmptyString
  | String c rest =>
      if is_word_char c then String c (sub_non_word false rest)
      else if in_run then sub_non_word true rest
      else String "_"%char (sub_non_word true rest)
  end.

(** A code object, as far as the file reads it: [co_freevars] and the object
    itself as a constant. *)
Record CodeType : Type := Build_CodeType {
  co_freevars : list string;
  code_object : PyConst
}.

Section MoreMethods.

Context {env : Environment}.

(** [self.cell_and_freevars()], a method of [self.tx]. *)
Variable cell_and_freevars : list string.

Definition create_load_closure (name : string) : M Instruction :=
  assert (bool_decide (name ∈ cell_and_freevars)) "" >>
  ret (create_instruction
         (if version_ge sys_version_info (3, 13)
          then "LOAD_FAST" else "LOAD_CLOSURE")
         None (Some (NameArg name))).

Definition create_load_deref (name : string) : M Instruction :=
  assert (bool_decide (name ∈ cell_and_freevars)) "" >>
  ret (create_instruction "LOAD_DEREF" None (Some (NameArg name))).

Definition create_store_deref (name : string) : M Instruction :=
  assert (bool_decide (name ∈ cell_and_freevars)) "" >>
  ret (create_instruction "STORE_DEREF" None (Some (NameArg name))).

Definition load_deref (varname : string) : M unit :=
  let* inst := create_load_deref varname in append_output inst.

Definition create_load_attrs (names : string) : M (list Instruction) :=
  mapM create_load_attr (split_dot_list names).

Definition create_store_attr (name : string) : M Instruction :=
  let* cg := get in
  (if bool_decide (name ∈ co_names (code_options cg))
   then ret tt
   else modify (set_code_options
                  (Build_CodeOptions (co_varnames (code_options cg))
                     (co_names (code_options cg) ++ [name])))) >>
  ret (create_instruction "STORE_ATTR" None (Some (NameArg name))).

Definition store_attr (name : string) : M unit :=
  let* inst := create_store_attr name in append_output inst.

Definition create_delete (value : string) : Instruction :=
  create_instruction "DELETE_FAST" None (Some (NameArg value)).

Definition load_function_name (fn_name : string) (push_null : bool)
    (num_on_stack : nat) : M (list Instruction) :=
  if push_null && version_ge sys_version_info (3, 11)
  then
    let* inst := create_load_global fn_name true in
    let output := bytecode_add_push_null [inst] in
    if bool_decide (0 < num_on_stack)
    then
      let* rot1 := rot_n (num_on_stack + 2) in
      let* rot2 := rot_n (num_on_stack + 2) in
      ret (output ++ rot1 ++ rot2)
    else ret output
  else
    let* inst := create_load_global fn_name true in
    let* rot := rot_n (num_on_stack + 1) in
    ret ([inst] ++ rot).

(** The local function [gen_fn] of [make_function_with_closure]. *)
Definition make_function_gen_fn (fn_name : string) (code : CodeType) : M unit :=
  (fix loads (vars : list string) : M unit :=
     match vars with
     | [] => ret tt
     | var :: vars =>
         assert (bool_decide (var ∈ cell_and_freevars)) "" >>
         (let* inst := create_load_closure var in output_append inst) >>
         loads vars
     end) (co_freevars code) >>
  output_append
    (create_instruction "BUILD_TUPLE" (Some (length (co_freevars code))) None) >>
  (let* inst := create_load_const (code_object code) in output_append inst) >>
  (if version_lt sys_version_info (3, 11)
   then let* inst := create_load_const (PyStr fn_name) in output_append inst
   else ret tt) >>
  (if version_ge sys_version_info (3, 13)
   then output_extend
          [create_instruction "MAKE_FUNCTION" None None;
           create_instruction "SET_FUNCTION_ATTRIBUTE" (Some 8) None]
   else output_append (create_instruction "MAKE_FUNCTION" (Some 8) None)).

Definition make_function_with_closure (fn_name : string) (code : CodeType)
    (push_null : bool) (num_on_stack : nat) : M unit :=
  assert (bool_decide (co_freevars code ≠ [])) "" >>
  (if push_null && version_ge sys_version_info (3, 11)
   then
     add_push_null (make_function_gen_fn fn_name code) false >>
     (let* rot := rot_n (num_on_stack + 2) in output_extend rot) >>
     (let* rot := rot_n (num_on_stack + 2) in output_extend rot)
   else
     make_function_gen_fn fn_name code >>
     (let* rot := rot_n (num_on_stack + 1) in output_extend rot)) >>
  clear_tos.

(** [create_call_function_kw]; [self.create_load_const] is the helper
    [create_load_const] with its check. *)
Definition create_call_function_kw (nargs : nat) (kw_names : list string)
    (push_null : bool) : KwResult :=
  if version_ge sys_version_info (3, 13)
  then
    let output := create_call_function nargs push_null in
    match py_getitem output (-1) with
    | None => KwIndexError
    | Some last =>
        if bool_decide (opname last = "CALL")
        then
          let output :=
            py_insert output (-1)
              (bytecode_create_load_const (PyTuple kw_names) true) in
          match py_setitem output (-1)
                  (create_instruction "CALL_KW" (Some nargs) None) with
          | Some output => KwOk output
          | None => KwIndexError
          end
        else KwAssertionError
    end
  else if version_ge sys_version_info (3, 11)
  then
    let output := create_call_function nargs push_null in
    let '(idx, expected_inst) :=
      if version_ge sys_version_info (3, 12)
      then ((-1)%Z, "CALL") else ((-2)%Z, "PRECALL") in
    match py_getitem output idx with
    | None => KwIndexError
    | Some inst =>
        if bool_decide (opname inst = expected_inst)
        then
          KwOk (py_insert output idx
                  (create_instruction "KW_NAMES" None
                     (Some (ConstArg (PyTuple kw_names)))))
        else KwAssertionError
    end
  else
    KwOk [bytecode_create_load_const (PyTuple kw_names) true;
          create_instruction "CALL_FUNCTION_KW" (Some nargs) None].

(** [setup_globally_cached]: [f_globals] is [self.tx.f_globals], a dictionary
    from names to objects, here to their identities; it is passed in and
    handed back with the instructions. *)
Definition setup_globally_cached (name : string) (value : nat)
    (f_globals : gmap string nat)
    : M (list Instruction * gmap string nat) :=
  let name := sub_non_word false name in
  let* f_globals :=
    match f_globals !! name with
    | Some known =>
        assert (bool_decide (known = value)) "" >> ret f_globals
    | None => ret (<[name := value]> f_globals)
    end in
  let* inst := create_load_global name true in
  ret ([inst], f_globals).

End MoreMethods.

(** The instruction [create_load_closure] answers for a known name. *)
Definition load_closure_instruction `{env : Environment} (name : string)
    : Instruction :=
  create_instruction
    (if version_ge sys_version_info (3, 13) then "LOAD_FAST" else "LOAD_CLOSURE")
    None (Some (NameArg name)).

(** Lines 464-479 in a row: what [gen_fn] of [make_function_with_closure]
    appends when every free variable of the code is known. *)
Definition closure_instructions `{env : Environment} (fn_name : string)
    (code : CodeType) : list Instruction :=
  map load_closure_instruction (co_freevars code)
  ++ [create_instruction "BUILD_TUPLE" (Some (length (co_freevars code))) None;
      bytecode_create_load_const (code_object code) true]
  ++ (if version_lt sys_version_info (3, 11)
      then [bytecode_create_load_const (PyStr fn_name) true] else [])
  ++ (if version_ge sys_version_info (3, 13)
      then [create_instruction "MAKE_FUNCTION" None None;
            create_instruction "SET_FUNCTION_ATTRIBUTE" (Some 8) None]
      else [create_instruction "MAKE_FUNCTION" (Some 8) None]).

(** Python 3.11 helpers whose call is [PRECALL] followed by [CALL]. *)
Definition example_env_precall : Environment := {|
  sys_version_info := (3, 11);
  create_dup_top := create_dup_top (Environment := example_env (3, 11));
  bytecode_create_load_const :=
    bytecode_create_load_const (Environment := example_env (3, 11));
  create_call_function nargs _ :=
    [create_instruction "PRECALL" (Some nargs) None;
     create_instruction "CALL" (Some nargs) None];
  create_rot_n := create_rot_n (Environment := example_env (3, 11));
  bytecode_add_push_null :=
    bytecode_add_push_null (Environment := example_env (3, 11));
  add_push_null_call_function_ex :=
    add_push_null_call_function_ex (Environment := example_env (3, 11));
  is_safe_constant := is_safe_constant (Environment := example_env (3, 11));
  rot_n_helper := rot_n_helper (Environment := example_env (3, 11));
  tx_export := false;
  tx_import_attr_source :=
    tx_import_attr_source (Environment := example_env (3, 11));
  update_co_names := update_co_names (Environment := example_env (3, 11));
  new_var := new_var (Environment := example_env (3, 11))
|}.

(** [PyCodegen.__init__]: [code_options] and [unique_var_id] stand for the
    state of [tx.output] that the session reads through [self.code_options]
    and [self.new_var]. *)
Definition __init__ (root : option PyConst) (graph_output_var : option string)
    (tempvars : option (gmap nat (option string)))
    (overridden_sources : option (gmap nat Source))
    (code_options : CodeOptions) (unique_var_id : nat) : PyCodegen :=
  Build_PyCodegen root None ∅ ∅ [] (default ∅ tempvars) graph_output_var
    code_options unique_var_id true (default ∅ overridden_sources).

(** A value whose [reconstruct] emits an instruction and returns something
    other than [None]. *)
Definition example_returns_value : VariableTracker :=
  Build_VariableTracker 17 "BrokenVariable()" OtherVariable None None None 0
    [OpAppendOutput (create_instruction "BUILD_LIST" (Some 0) None)] false.

(** What no call on the session changes about the cache: the values
    registered in [tempvars] are the same before and after, a value with a
    slot keeps having one, and no use count goes down. *)
Record session_keeps (cg cg' : PyCodegen) : Prop := Build_session_keeps {
  keeps_registered :
    ∀ k, is_Some (tempvars cg' !! k) ↔ is_Some (tempvars cg !! k);
  keeps_slots :
    ∀ k var, tempvars cg !! k = Some (Some var) →
             ∃ var', tempvars cg' !! k = Some (Some var');
  keeps_uses :
    ∀ k, default 0 (uses cg !! k) ≤ default 0 (uses cg' !! k)
}.

Definition keeps {A : Type} (m : M A) : Prop :=
  ∀ cg,
    match m cg with
    | Ok _ cg' | Raise _ cg' => session_keeps cg cg'
    | OutOfFuel => True
    end.

(** The submodule [layer.weight] of the module held by the local [x]. *)
Definition example_module : VariableTracker :=
  Build_VariableTracker 15 "NNModuleVariable()"
    (NNModuleVariable "x.layer.weight") None None None 0 [] true.

(** The constant [5]. *)
Definition example_constant : VariableTracker :=
  Build_VariableTracker 16 "ConstantVariable(5)" OtherVariable None None
    (Some (PyInt 5)) 0 [OpRaise NotImplementedError] true.

(** A code object with the free variables [a] and [b]. *)
Definition example_code : CodeType :=
  Build_CodeType ["a"; "b"] (PyObject 50).

(** * Properties *)

(** ** The session order *)

Lemma session_le_refl cg : session_le cg cg.
Proof. by constructor. Qed.

Lemma session_le_trans cg1 cg2 cg3 :
  session_le cg1 cg2 → session_le cg2 cg3 → session_le cg1 cg3.
Proof.
  intros [] []. constructor; try congruence.
  - by etrans.
  - by etrans.
  - auto.
  - auto.
Qed.

Lemma session_le_set_top_of_stack tos cg :
  session_le cg (set_top_of_stack tos cg).
Proof. by constructor. Qed.

Lemma session_le_set_uses u cg : session_le cg (set_uses u cg).
Proof. by constructor. Qed.

Lemma session_le_set_code_options co cg :
  session_le cg (set_code_options co cg).
Proof. by constructor. Qed.

Lemma session_le_set_unique_var_id n cg :
  session_le cg (set_unique_var_id n cg).
Proof. by constructor. Qed.

Lemma session_le_output_app insts cg :
  session_le cg (set_output (_output cg ++ insts) cg).
Proof. constructor; try done. simpl. by apply prefix_app_r. Qed.

Lemma session_le_tempvars_insert k x cg :
  session_le cg (set_tempvars (<[k := x]> (tempvars cg)) cg).
Proof.
  constructor; try done. simpl. intros k' Hk'.
  destruct (decide (k = k')) as [->|Hne].
  - rewrite lookup_insert_eq. eauto.
  - by rewrite lookup_insert_ne.
Qed.

Lemma graph_outputs_wf_empty : graph_outputs_wf ∅.
Proof. split; intros *; by rewrite lookup_empty. Qed.

Lemma graph_outputs_wf_insert (g : gmap nat GraphOutputEntry) k value :
  g !! k = None →
  graph_outputs_wf g →
  graph_outputs_wf (<[k := Build_GraphOutputEntry (size g) value]> g).
Proof.
  intros Hk [Hlt Hinj]. split.
  - intros k' e. rewrite map_size_insert_None by done.
    destruct (decide (k = k')) as [->|Hne].
    + rewrite lookup_insert_eq. intros [= <-]. simpl. lia.
    + rewrite lookup_insert_ne by done. intros He. apply Hlt in He. lia.
  - intros k1 k2 e1 e2.
    destruct (decide (k1 = k)) as [->|Hne1], (decide (k2 = k)) as [->|Hne2];
      rewrite ?lookup_insert_eq, ?lookup_insert_ne by done; try done.
    + intros [= <-] He2 Hidx. apply Hlt in He2. simpl in Hidx. lia.
    + intros He1 [= <-] Hidx. apply Hlt in He1. simpl in Hidx. lia.
    + eauto.
Qed.

Lemma session_le_graph_outputs_insert k value cg :
  graph_outputs cg !! k = None →
  session_le cg
    (set_graph_outputs
       (<[k := Build_GraphOutputEntry (size (graph_outputs cg)) value]>
          (graph_outputs cg)) cg).
Proof.
  intros Hk. constructor; try done; simpl.
  - by apply insert_subseteq.
  - by apply graph_outputs_wf_insert.
Qed.

(** ** Rules for [preserves] *)

Lemma preserves_ret {A} (a : A) : preserves (ret a).
Proof. intros cg. apply session_le_refl. Qed.

Lemma preserves_raise {A} e : preserves (raise (A := A) e).
Proof. intros cg. apply session_le_refl. Qed.

Lemma preserves_get : preserves get.
Proof. intros cg. apply session_le_refl. Qed.

Lemma preserves_bind {A B} (m : M A) (k : A → M B) :
  preserves m → (∀ a, preserves (k a)) → preserves (bind m k).
Proof.
  intros Hm Hk cg. unfold bind. specialize (Hm cg).
  destruct (m cg) as [a cg'| |]; try done.
  specialize (Hk a cg').
  destruct (k a cg'); try done; by eapply session_le_trans.
Qed.

Lemma preserves_modify (f : PyCodegen → PyCodegen) :
  (∀ cg, session_le cg (f cg)) → preserves (modify f).
Proof. intros Hf cg. apply Hf. Qed.

Lemma preserves_assert cond msg : preserves (assert cond msg).
Proof. destruct cond; [apply preserves_ret | apply preserves_raise]. Qed.

Lemma preserves_unimplemented {A} msg : preserves (unimplemented (A := A) msg).
Proof. apply preserves_raise. Qed.

Lemma preserves_try_except {A} (body handler : M A) :
  preserves body → preserves handler →
  preserves (try_except_NotImplementedError body handler).
Proof.
  intros Hb Hh cg. unfold try_except_NotImplementedError. specialize (Hb cg).
  destruct (body cg) as [|e cg'|]; try done.
  destruct e; try done. specialize (Hh cg').
  destruct (handler cg'); try done; by eapply session_le_trans.
Qed.

Create HintDb preserves.

#[local] Hint Resolve
  preserves_ret preserves_raise preserves_get preserves_modify
  preserves_assert preserves_unimplemented preserves_try_except
  session_le_refl session_le_set_top_of_stack session_le_set_uses
  session_le_set_code_options session_le_set_unique_var_id
  session_le_output_app session_le_tempvars_insert : preserves.

(** Takes a method apart along its binds and its tests. *)
Ltac preserves_step :=
  match goal with
  | |- preserves (bind _ _) => apply preserves_bind; [|intros ?]
  | |- preserves (if ?b then _ else _) => destruct b
  | |- preserves (match ?x with _ => _ end) => destruct x
  | |- preserves (modify _) => apply preserves_modify; intros ?
  | |- _ => solve [eauto with preserves]
  end.

Ltac solve_preserves := repeat preserves_step.

Section PreservesMethods.

Context {env : Environment}.

Lemma preserves_clear_tos : preserves clear_tos.
Proof. unfold clear_tos. solve_preserves. Qed.

Lemma preserves_output_append inst : preserves (output_append inst).
Proof. unfold output_append. solve_preserves. Qed.

Lemma preserves_output_extend insts : preserves (output_extend insts).
Proof. unfold output_extend. solve_preserves. Qed.

#[local] Hint Resolve preserves_clear_tos preserves_output_append
  preserves_output_extend : preserves.

Lemma preserves_append_output inst : preserves (append_output inst).
Proof. unfold append_output. solve_preserves. Qed.

Lemma preserves_extend_output insts : preserves (extend_output insts).
Proof. unfold extend_output. solve_preserves. Qed.

Lemma preserves_create_load name : preserves (create_load name).
Proof. unfold create_load. solve_preserves. Qed.

Lemma preserves_create_store name : preserves (create_store name).
Proof. unfold create_store. solve_preserves. Qed.

Lemma preserves_create_load_global name add :
  preserves (create_load_global name add).
Proof. unfold create_load_global. solve_preserves. Qed.

Lemma preserves_create_load_const c : preserves (create_load_const c).
Proof. unfold create_load_const. solve_preserves. Qed.

Lemma preserves_create_load_const_unchecked c :
  preserves (create_load_const_unchecked c).
Proof. unfold create_load_const_unchecked. solve_preserves. Qed.

Lemma preserves_create_load_attr name : preserves (create_load_attr name).
Proof. unfold create_load_attr. solve_preserves. Qed.

#[local] Hint Resolve preserves_append_output preserves_extend_output
  preserves_create_load preserves_create_store preserves_create_load_global
  preserves_create_load_const preserves_create_load_const_unchecked
  preserves_create_load_attr : preserves.

Lemma preserves_load_attr name : preserves (load_attr name).
Proof. unfold load_attr. solve_preserves. Qed.

Lemma preserves_pop_top : preserves pop_top.
Proof. unfold pop_top. solve_preserves. Qed.

Lemma preserves_call_function nargs push_null :
  preserves (call_function nargs push_null).
Proof. unfold call_function. solve_preserves. Qed.

Lemma preserves_dup_top : preserves dup_top.
Proof. unfold dup_top. solve_preserves. Qed.

Lemma preserves_store varname : preserves (store varname).
Proof. unfold store. solve_preserves. Qed.

Lemma preserves_add_graph_output value : preserves (add_graph_output value).
Proof.
  intros cg. unfold add_graph_output, bind, get, modify, ret. simpl.
  case_bool_decide as Hk; simpl.
  - apply session_le_refl.
  - apply session_le_graph_outputs_insert. by apply eq_None_not_Some.
Qed.

Lemma preserves_graph_outputs_index key : preserves (graph_outputs_index key).
Proof. unfold graph_outputs_index. solve_preserves. Qed.

#[local] Hint Resolve preserves_add_graph_output preserves_graph_outputs_index
  : preserves.

Lemma preserves_load_graph_output index : preserves (load_graph_output index).
Proof. unfold load_graph_output. solve_preserves. Qed.

Lemma preserves_add_cache value : preserves (add_cache value).
Proof.
  unfold add_cache. apply preserves_bind; [solve_preserves|]. intros cg.
  destruct (new_var _ _) as [[var counter] co]. solve_preserves.
  eapply session_le_trans;
    [apply session_le_set_unique_var_id | apply session_le_set_code_options].
Qed.

Lemma preserves_rot_n n : preserves (rot_n n).
Proof. unfold rot_n. solve_preserves. Qed.

(** [add_push_null], with its binds and version tests carried out. *)
Lemma add_push_null_unfold (gen_fn : M unit) call_function_ex cg :
  add_push_null gen_fn call_function_ex cg =
    let old_len := length (_output cg) in
    let splice :=
      if call_function_ex then add_push_null_call_function_ex
      else bytecode_add_push_null in
    match gen_fn (if version_lt sys_version_info (3, 13)
                  then set_top_of_stack None cg else cg) with
    | Ok _ cg1 =>
        let cg2 :=
          set_output (take old_len (_output cg1)
                      ++ splice (drop old_len (_output cg1))) cg1 in
        Ok tt (if version_ge sys_version_info (3, 13)
               then set_top_of_stack None cg2 else cg2)
    | Raise e cg1 => Raise e cg1
    | OutOfFuel => OutOfFuel
    end.
Proof.
  unfold add_push_null, version_ge, bind, get, modify, ret, clear_tos,
    output_extend.
  simpl. destruct (version_lt sys_version_info (3, 13)); simpl;
    destruct (gen_fn _) as [[] cg1| |]; simpl; try done;
    by destruct call_function_ex.
Qed.

Lemma preserves_add_push_null (gen_fn : M unit) call_function_ex :
  preserves gen_fn → preserves (add_push_null gen_fn call_function_ex).
Proof.
  intros Hgen cg. rewrite add_push_null_unfold. simpl.
  set (cg0 := if version_lt _ _ then _ else _).
  assert (session_le cg cg0) as H0.
  { subst cg0. destruct (version_lt _ _); eauto with preserves. }
  specialize (Hgen cg0). destruct (gen_fn cg0) as [[] cg1|e cg1|]; try done.
  - assert (session_le cg cg1) as H1 by (by eapply session_le_trans).
    destruct H1 as [[added Hout] ? ? ? ? ? ? ?].
    rewrite Hout, take_app_length, drop_app_length.
    destruct (version_ge _ _); constructor; simpl; try done;
      by apply prefix_app_r.
  - by eapply session_le_trans.
Qed.

End PreservesMethods.

#[local] Hint Resolve preserves_clear_tos preserves_output_append
  preserves_output_extend preserves_append_output preserves_extend_output
  preserves_create_load preserves_create_store preserves_create_load_global
  preserves_create_load_const preserves_create_load_const_unchecked
  preserves_create_load_attr preserves_load_attr preserves_pop_top
  preserves_call_function preserves_dup_top preserves_store
  preserves_add_graph_output preserves_graph_outputs_index
  preserves_load_graph_output preserves_add_cache preserves_rot_n
  preserves_add_push_null : preserves.

Section PreservesDispatcher.

Context {env : Environment}.
Variable exec : CodegenOp → M unit.
Hypothesis exec_preserves : ∀ op, preserves (exec op).

Lemma preserves_self_call value allow_cache :
  preserves (self_call exec value allow_cache).
Proof. apply exec_preserves. Qed.

Lemma preserves_run_ops ops : preserves (run_ops exec ops).
Proof. induction ops; simpl; solve_preserves. Qed.

#[local] Hint Resolve preserves_self_call preserves_run_ops : preserves.

Lemma preserves_call_reconstruct value :
  preserves (call_reconstruct exec value).
Proof. unfold call_reconstruct. solve_preserves. Qed.

Lemma preserves_load_import_from module_name object_name :
  preserves (load_import_from exec module_name object_name).
Proof. unfold load_import_from. solve_preserves. Qed.

Lemma preserves_foreach items : preserves (foreach exec items).
Proof. induction items; simpl; solve_preserves. Qed.

#[local] Hint Resolve preserves_call_reconstruct preserves_load_import_from
  preserves_foreach : preserves.

Lemma preserves_restore_stack stack_values value_from_source_arg :
  preserves (restore_stack exec stack_values value_from_source_arg).
Proof.
  intros cg. unfold restore_stack, bind, get, modify, try_finally. simpl.
  pose proof (preserves_foreach stack_values
                (set_value_from_source
                   (value_from_source cg && value_from_source_arg) cg)) as H.
  destruct (foreach _ _ _) as [[] cg'|e cg'|]; try done;
    destruct H; by constructor.
Qed.

Ltac solve_preserves_dispatch :=
  cbv zeta; repeat first [apply preserves_add_push_null | preserves_step].

Lemma preserves_codegen_graph_output_value value :
  preserves (codegen_graph_output_value exec value).
Proof. unfold codegen_graph_output_value. solve_preserves_dispatch. Qed.

Lemma preserves_codegen_reconstruct value allow_cache :
  preserves (codegen_reconstruct exec value allow_cache).
Proof. unfold codegen_reconstruct. solve_preserves. Qed.

#[local] Hint Resolve preserves_restore_stack
  preserves_codegen_graph_output_value preserves_codegen_reconstruct
  : preserves.

Lemma preserves_codegen_by_kind value allow_cache :
  preserves (codegen_by_kind exec value allow_cache).
Proof.
  unfold codegen_by_kind. solve_preserves_dispatch.
  all: match goal with |- preserves (_ ?parts) => induction parts end;
    solve_preserves.
Qed.

#[local] Hint Resolve preserves_codegen_by_kind : preserves.

Lemma preserves___call__ value allow_cache :
  preserves (__call__ exec value allow_cache).
Proof. unfold __call__. solve_preserves. Qed.

#[local] Hint Resolve preserves___call__ : preserves.

Lemma preserves_step op : preserves (step exec op).
Proof. destruct op; simpl; solve_preserves_dispatch. Qed.

End PreservesDispatcher.

(** Every call on the session keeps the session order, at any fuel. *)
Lemma exec_preserves `{env : Environment} fuel op : preserves (exec fuel op).
Proof.
  revert op. induction fuel as [|fuel IH]; intros op; [done|].
  simpl. by apply preserves_step.
Qed.

(** ** The instruction stream *)

(** C6. [append_output] and [extend_output] add their instructions at the
    end of the stream and set [top_of_stack] to [None], whatever it was and
    whatever is added; nothing else in the session changes, and the test
    [self.top_of_stack is value] of the dispatcher's cache then fails for
    every value. *)
Theorem append_extend_output_clear_top_of_stack
    (inst : Instruction) (insts : list Instruction) (cg : PyCodegen) :
  let cg1 := set_top_of_stack None (set_output (_output cg ++ [inst]) cg) in
  let cg2 := set_top_of_stack None (set_output (_output cg ++ insts) cg) in
  append_output inst cg = Ok tt cg1
  ∧ extend_output insts cg = Ok tt cg2
  ∧ top_of_stack cg1 = None
  ∧ top_of_stack cg2 = None
  ∧ (∀ value, top_of_stack_is cg1 value = false)
  ∧ (∀ value, top_of_stack_is cg2 value = false).
Proof. by repeat split. Qed.

(** ** Rotation *)

(** C7. When [create_rot_n(n)] raises [AttributeError] (no native rotation of
    depth [n]), [rot_n(n)] returns [BUILD_TUPLE n], the unchecked constant
    load of [rot_n_helper(n)], the instructions of [create_rot_n(2)],
    [CALL_FUNCTION_EX 0] and [UNPACK_SEQUENCE n], in this order, and leaves
    the session as it was.  The rotation of depth two that the fallback uses
    is the one [create_rot_n(2)] provides. *)
Theorem rot_n_fallback `{env : Environment}
    (n : nat) (rot_two : list Instruction) (cg : PyCodegen) :
  create_rot_n n = None →
  create_rot_n 2 = Some rot_two →
  rot_n n cg =
    Ok ([create_instruction "BUILD_TUPLE" (Some n) None;
         bytecode_create_load_const (rot_n_helper n) false]
        ++ rot_two
        ++ [create_instruction "CALL_FUNCTION_EX" (Some 0) None;
            create_instruction "UNPACK_SEQUENCE" (Some n) None])
       cg.
Proof.
  intros Hn Htwo. unfold rot_n. rewrite Hn. cbn. by rewrite Htwo.
Qed.

(** On a Python 3.7 there is no [ROT_FOUR]: [rot_n(4)] takes the fallback. *)
Lemma rot_n_fallback_witness :
  rot_n (env := example_env (3, 7)) 4 example_session =
    Ok [create_instruction "BUILD_TUPLE" (Some 4) None;
        create_instruction "LOAD_CONST" None (Some (ConstArg (PyObject 1004)));
        create_instruction "ROT_TWO" None None;
        create_instruction "CALL_FUNCTION_EX" (Some 0) None;
        create_instruction "UNPACK_SEQUENCE" (Some 4) None]
       example_session.
Proof.
  apply (rot_n_fallback (env := example_env (3, 7)) 4
           [create_instruction "ROT_TWO" None None] example_session);
    reflexivity.
Defined.

(** ** [restore_stack] *)

(** C9. [restore_stack] runs the loop over the stack values with the flag
    [value_from_source] narrowed to [prev and value_from_source], and hands
    back the session of the loop with the flag set to [prev] again, both when
    the loop returns and when a value in it raises: the result is that of the
    loop, the exception is the same, and the flag is what it was before the
    call.  The calls [exec] stands for may do anything to the flag. *)
Theorem restore_stack_restores_value_from_source
    (exec : CodegenOp → M unit)
    (stack_values : list (Source + VariableTracker))
    (value_from_source_arg : bool) (cg : PyCodegen) :
  let prev := value_from_source cg in
  let narrowed := set_value_from_source (prev && value_from_source_arg) cg in
  match foreach exec stack_values narrowed with
  | Ok _ cg' =>
      restore_stack exec stack_values value_from_source_arg cg =
        Ok tt (set_value_from_source prev cg')
  | Raise e cg' =>
      restore_stack exec stack_values value_from_source_arg cg =
        Raise e (set_value_from_source prev cg')
  | OutOfFuel =>
      restore_stack exec stack_values value_from_source_arg cg = OutOfFuel
  end
  ∧ match restore_stack exec stack_values value_from_source_arg cg with
    | Ok _ cg' | Raise _ cg' => value_from_source cg' = value_from_source cg
    | OutOfFuel => True
    end.
Proof.
  unfold restore_stack, bind, get, modify, try_finally. simpl.
  destruct (foreach _ _ _) as [[] cg'|e cg'|]; by split.
Qed.

(** ** The graph-output table *)

(** C3. [add_graph_output] returns the identity of the value's proxy as key.
    If the key has an entry, the session is left as it is.  If not, the key
    gets the entry whose index is the number of entries so far, with the
    value, and nothing else changes.  In a table numbered 0, ..., size - 1
    this index is above every index given before, so no index is given
    twice; the table stays numbered this way, and every entry it had is
    still there unchanged.  The first index of a session is 0. *)
Theorem add_graph_output_assigns_once
    (value : VariableTracker) (cg : PyCodegen) :
  graph_outputs_wf (graph_outputs cg) →
  let key := vt_proxy_id value in
  ∃ cg',
    add_graph_output value cg = Ok key cg'
    ∧ (is_Some (graph_outputs cg !! key) → cg' = cg)
    ∧ (graph_outputs cg !! key = None →
         cg' = set_graph_outputs
                 (<[key := Build_GraphOutputEntry (size (graph_outputs cg))
                             value]> (graph_outputs cg)) cg
         ∧ (∀ k e, graph_outputs cg !! k = Some e →
                   index e < size (graph_outputs cg)))
    ∧ (∀ k e, graph_outputs cg !! k = Some e → graph_outputs cg' !! k = Some e)
    ∧ (∃ e, graph_outputs cg' !! key = Some e)
    ∧ (graph_outputs cg = ∅ →
         graph_outputs cg' !! key = Some (Build_GraphOutputEntry 0 value))
    ∧ graph_outputs_wf (graph_outputs cg').
Proof.
  intros Hwf key.
  unfold add_graph_output, bind, get, modify, ret. simpl. fold key.
  case_bool_decide as Hk; simpl.
  - exists cg. split_and!; try done.
    + intros Hnone. destruct Hk as [e He]. congruence.
    + intros Hempty. rewrite Hempty, lookup_empty in Hk. by destruct Hk.
  - apply eq_None_not_Some in Hk. eexists. split; [done|].
    split_and!; simpl; try done.
    + intros [e He]. congruence.
    + intros _. split; [done|]. by destruct Hwf as [Hlt _].
    + intros k e He. rewrite lookup_insert_ne; [done|]. congruence.
    + rewrite lookup_insert_eq. eauto.
    + intros ->. by rewrite lookup_insert_eq, map_size_empty.
    + by apply graph_outputs_wf_insert.
Qed.

(** A table with one entry takes a second key at index 1. *)
Lemma add_graph_output_assigns_once_witness :
  let cg :=
    set_graph_outputs
      (<[7 := Build_GraphOutputEntry (size (∅ : gmap nat GraphOutputEntry))
                (example_tensor 20 7)]> ∅)
      example_session in
  graph_outputs_wf (graph_outputs cg)
  ∧ ∃ cg',
      add_graph_output (example_tensor 21 8) cg = Ok 8 cg'
      ∧ cg' = set_graph_outputs
                (<[8 := Build_GraphOutputEntry 1 (example_tensor 21 8)]>
                   (graph_outputs cg)) cg.
Proof.
  intros cg.
  assert (graph_outputs_wf (graph_outputs cg)) as Hwf.
  { apply graph_outputs_wf_insert; [reflexivity | apply graph_outputs_wf_empty]. }
  split; [exact Hwf|].
  destruct (add_graph_output_assigns_once (example_tensor 21 8) cg Hwf)
    as (cg' & Hcall & _ & Hfresh & _).
  exists cg'. split; [exact Hcall|]. apply Hfresh. reflexivity.
Defined.

(** ** The dispatcher *)

(** C8. Take a value that reaches the last branch of the dispatcher: no cache
    hit, not generated from its source, not a safe constant, and of none of
    the classes with a branch of their own.  If its [reconstruct] raises
    [NotImplementedError], the dispatcher raises the error of
    [unimplemented] with the message "reconstruct: " followed by the value,
    in the session as [reconstruct] left it: no duplicate-top and no store
    are emitted, no temp slot is assigned and [top_of_stack] is not set. *)
Theorem reconstruct_not_implemented_is_unsupported `{env : Environment}
    (exec : CodegenOp → M unit) (value : VariableTracker)
    (allow_cache : bool) (cg cg' : PyCodegen) :
  allow_cache && top_of_stack_is cg value = false →
  (if allow_cache then tempvars_get cg value else None) = None →
  source_for_codegen cg value allow_cache = None →
  safe_python_constant value = None →
  vt_class value = OtherVariable
  ∨ vt_class value = FunctionDecoratedByContextlibContextManagerVariable →
  call_reconstruct exec (inr value)
    (set_uses (<[vt_id value := S (default 0 (uses cg !! vt_id value))]>
                 (uses cg)) cg)
    = Raise NotImplementedError cg' →
  __call__ exec (inr value) allow_cache cg =
    Raise (Unsupported ("reconstruct: " +:+ vt_repr value)) cg'.
Proof.
  intros Htos Htmp Hsrc Hconst Hclass Hrec.
  unfold __call__, bind, get. simpl. rewrite Htos, Htmp, Hsrc.
  unfold codegen_by_kind. rewrite Hconst.
  destruct Hclass as [-> | ->];
    unfold codegen_reconstruct, bind, modify, try_except_NotImplementedError;
    cbv beta iota; by rewrite Hrec.
Qed.

(** A value whose [reconstruct] raises, registered for a temp slot: the
    dispatcher raises and the stream stays empty. *)
Lemma reconstruct_not_implemented_is_unsupported_witness :
  let cg :=
    set_tempvars ({[13 := None]} : gmap nat (option string)) example_session in
  __call__ (env := example_env (3, 12)) (exec (env := example_env (3, 12)) 3)
    (inr example_unsupported) true cg =
    Raise (Unsupported "reconstruct: UserDefinedObjectVariable()")
      (set_uses ({[13 := 1]} : gmap nat nat) cg).
Proof.
  intros cg.
  apply (reconstruct_not_implemented_is_unsupported
           (env := example_env (3, 12)) (exec (env := example_env (3, 12)) 3)
           example_unsupported true cg
           (set_uses ({[13 := 1]} : gmap nat nat) cg));
    first [reflexivity | left; reflexivity].
Defined.

(** C1, as the code has it.  For a value with a source whose mutation type is
    [ValueMutationExisting], the dispatcher called with [allow_cache] is the
    call of the dispatcher on [value.source], provided that the value is not
    the current top of the stack, has no temp slot assigned, and is not a
    [FunctionDecoratedByContextlibContextManagerVariable]; the session flag
    [value_from_source] plays no part. *)
Theorem mutated_value_is_read_from_source `{env : Environment}
    (fuel : nat) (value : VariableTracker) (source : Source)
    (cg : PyCodegen) :
  vt_source value = Some source →
  is_ValueMutationExisting (vt_mutation_type value) = true →
  top_of_stack_is cg value = false →
  tempvars_get cg value = None →
  is_FunctionDecoratedByContextlibContextManagerVariable value = false →
  __call__ (exec fuel) (inr value) true cg =
    exec fuel (OpCall (inl source) true) cg.
Proof.
  intros Hsrc Hmut Htos Htmp Hdec.
  unfold __call__, bind, get, source_for_codegen. simpl.
  by rewrite Htos, Htmp, Hsrc, Hdec, Hmut.
Qed.

(** The mutated list is read back from the local [x]. *)
Lemma mutated_value_is_read_from_source_witness :
  __call__ (env := example_env (3, 12)) (exec (env := example_env (3, 12)) 3)
    (inr example_mutated_list) true example_session =
    Ok tt
      (set_output
         [create_instruction "LOAD_FAST" None (Some (NameArg "x"))]
         example_session).
Proof.
  rewrite (mutated_value_is_read_from_source (env := example_env (3, 12))
             3 example_mutated_list example_source example_session);
    reflexivity.
Defined.

(** C1 as stated fails in four ways, shown on values with a source and the
    mutation type [ValueMutationExisting].  On top of the stack the value is
    duplicated; with a temp slot it is loaded from the slot; without
    [allow_cache] it is rebuilt by its [reconstruct]; and a function
    decorated by a context manager is rebuilt by its [reconstruct] too.  The
    read from the source would have emitted [LOAD_FAST x]. *)
Lemma source_read_depends_on_cache_state :
  let env := example_env (3, 12) in
  let load_x := create_instruction "LOAD_FAST" None (Some (NameArg "x")) in
  let on_top := set_top_of_stack (Some 11) example_session in
  let slot :=
    set_tempvars ({[11 := Some "graph_out_0"]} : gmap nat (option string))
      example_session in
  vt_source example_mutated_list = Some example_source
  ∧ vt_mutation_type example_mutated_list = Some ValueMutationExisting
  ∧ vt_source example_decorated = Some example_source
  ∧ vt_mutation_type example_decorated = Some ValueMutationExisting
  ∧ exec (env := env) 3 (OpCall (inl example_source) true) on_top =
      Ok tt (set_output [load_x] example_session)
  ∧ __call__ (env := env) (exec (env := env) 3)
      (inr example_mutated_list) true on_top =
      Ok tt (set_output [create_instruction "COPY" (Some 1) None] on_top)
  ∧ __call__ (env := env) (exec (env := env) 3)
      (inr example_mutated_list) true slot =
      Ok tt
        (set_top_of_stack (Some 11)
           (set_output
              [create_instruction "LOAD_FAST" None
                 (Some (NameArg "graph_out_0"))] slot))
  ∧ __call__ (env := env) (exec (env := env) 3)
      (inr example_mutated_list) false example_session =
      Ok tt
        (set_top_of_stack (Some 11)
           (set_uses ({[11 := 1]} : gmap nat nat)
              (set_output [create_instruction "BUILD_LIST" (Some 0) None]
                 example_session)))
  ∧ __call__ (env := env) (exec (env := env) 3)
      (inr example_decorated) true example_session =
      Ok tt
        (set_top_of_stack (Some 12)
           (set_uses ({[12 := 1]} : gmap nat nat)
              (set_output
                 [create_instruction "LOAD_DEREF" None (Some (NameArg "f"))]
                 example_session))).
Proof. repeat split; vm_compute; reflexivity. Qed.

(** A request that is not answered from the value's source leaves the value
    as [top_of_stack]. *)
Lemma __call___sets_top_of_stack `{env : Environment}
    (exec : CodegenOp → M unit) (value : VariableTracker)
    (cg cg1 : PyCodegen) :
  __call__ exec (inr value) true cg = Ok tt cg1 →
  top_of_stack_is cg value = true
  ∨ is_Some (tempvars_get cg value)
  ∨ source_for_codegen cg value true = None →
  top_of_stack cg1 = Some (vt_id value).
Proof.
  unfold __call__, bind, get. simpl.
  destruct (top_of_stack_is cg value) eqn:Htos.
  { intros [= <-] _. simpl. unfold top_of_stack_is in Htos.
    by apply bool_decide_eq_true in Htos. }
  destruct (tempvars_get cg value) as [name|] eqn:Htmp.
  { destruct (create_load name cg) as [inst cg'| |]; [|done..].
    simpl. by intros [= <-] _. }
  intros Hcall [? | [[? ?] | Hsrc]]; [done..|].
  rewrite Hsrc in Hcall.
  destruct (codegen_by_kind exec value true cg) as [[] cg'| |]; [|done..].
  simpl in Hcall. by injection Hcall as <-.
Qed.

(** A request for the value on top of the stack emits one duplicate-top and
    changes nothing else. *)
Lemma __call___top_of_stack_hit `{env : Environment}
    (exec : CodegenOp → M unit) (value : VariableTracker) (cg : PyCodegen) :
  top_of_stack cg = Some (vt_id value) →
  __call__ exec (inr value) true cg =
    Ok tt (set_output (_output cg ++ [create_dup_top]) cg).
Proof.
  intros Htos. unfold __call__, bind, get, top_of_stack_is. simpl.
  by rewrite bool_decide_eq_true_2.
Qed.

(** C2, as the code has it.  With [allow_cache], when a request for a value
    returns and was not answered from the value's source (the value was on
    top of the stack, or had a temp slot, or is not generated from a source
    at all), a second request for it right after emits exactly one
    duplicate-top instruction and changes nothing else in the session. *)
Theorem second_request_duplicates_top `{env : Environment}
    (fuel fuel' : nat) (value : VariableTracker) (cg cg1 : PyCodegen) :
  __call__ (exec fuel) (inr value) true cg = Ok tt cg1 →
  top_of_stack_is cg value = true
  ∨ is_Some (tempvars_get cg value)
  ∨ source_for_codegen cg value true = None →
  __call__ (exec fuel') (inr value) true cg1 =
    Ok tt (set_output (_output cg1 ++ [create_dup_top]) cg1).
Proof.
  intros Hfirst Hpath. apply __call___top_of_stack_hit.
  by eapply __call___sets_top_of_stack.
Qed.

(** The list without source is rebuilt once and then duplicated. *)
Lemma second_request_duplicates_top_witness :
  let env := example_env (3, 12) in
  let cg1 :=
    set_top_of_stack (Some 10)
      (set_uses ({[10 := 1]} : gmap nat nat)
         (set_output [create_instruction "BUILD_LIST" (Some 0) None]
            example_session)) in
  __call__ (env := env) (exec (env := env) 3) (inr example_list) true
    example_session = Ok tt cg1
  ∧ __call__ (env := env) (exec (env := env) 0) (inr example_list) true cg1 =
      Ok tt
        (set_output
           [create_instruction "BUILD_LIST" (Some 0) None;
            create_instruction "COPY" (Some 1) None] cg1).
Proof.
  intros env cg1.
  assert (__call__ (env := env) (exec (env := env) 3) (inr example_list) true
            example_session = Ok tt cg1) as Hfirst by reflexivity.
  split; [exact Hfirst|].
  apply (second_request_duplicates_top (env := env) 3 0 example_list
           example_session cg1 Hfirst).
  right; right; reflexivity.
Defined.

(** C2 as stated fails for a value that is generated from its source: an
    input tensor that is the local [x] is loaded by [LOAD_FAST x] at the
    first request, which leaves [top_of_stack] empty, and by [LOAD_FAST x]
    again at the second; no duplicate-top is emitted. *)
Lemma second_request_of_sourced_value_reads_again :
  let env := example_env (3, 12) in
  let load_x := create_instruction "LOAD_FAST" None (Some (NameArg "x")) in
  let cg1 := set_output [load_x] example_session in
  __call__ (env := env) (exec (env := env) 3) (inr example_input_tensor) true
    example_session = Ok tt cg1
  ∧ __call__ (env := env) (exec (env := env) 3) (inr example_input_tensor)
      true cg1 = Ok tt (set_output [load_x; load_x] example_session)
  ∧ create_dup_top (Environment := env) =
      create_instruction "COPY" (Some 1) None.
Proof. repeat split; vm_compute; reflexivity. Qed.

(** A request for a value with a temp slot that is not on top of the stack
    emits one load of the slot and makes the value [top_of_stack]. *)
Lemma __call___tempvars_hit `{env : Environment}
    (exec : CodegenOp → M unit) (value : VariableTracker) (var : string)
    (cg : PyCodegen) :
  tempvars cg !! vt_id value = Some (Some var) →
  top_of_stack_is cg value = false →
  var ∈ co_varnames (code_options cg) →
  __call__ exec (inr value) true cg =
    Ok tt
      (set_top_of_stack (Some (vt_id value))
         (set_output
            (_output cg
             ++ [create_instruction "LOAD_FAST" None (Some (NameArg var))])
            cg)).
Proof.
  intros Hslot Htos Hvar.
  unfold __call__, bind, get, tempvars_get. simpl. rewrite Htos, Hslot.
  unfold create_load, bind, get, assert. simpl.
  by rewrite bool_decide_eq_true_2.
Qed.

(** C4, as the code has it.  Take a structural value registered in
    [tempvars] without a slot, not on top of the stack and not generated from
    a source, whose [reconstruct] returns.  With [allow_cache] the first pass
    emits the instructions of [reconstruct], then a duplicate-top, then the
    store into the name that [new_var] hands out, records the name as the
    slot of the value and makes the value [top_of_stack].  A later pass, in
    any session that still has the slot and the name and in which the value
    is no longer [top_of_stack], emits the single load of the slot.  A second
    pass right after the first finds the value on top of the stack and emits
    the single duplicate-top instead. *)
Theorem structural_value_cached_in_temp_slot `{env : Environment}
    (fuel : nat) (value : VariableTracker) (cg cg1 : PyCodegen)
    (var : string) (counter : nat) (co : CodeOptions) :
  top_of_stack_is cg value = false →
  tempvars cg !! vt_id value = Some None →
  source_for_codegen cg value true = None →
  safe_python_constant value = None →
  vt_class value = OtherVariable
  ∨ vt_class value = FunctionDecoratedByContextlibContextManagerVariable →
  call_reconstruct (exec fuel) (inr value)
    (set_uses (<[vt_id value := S (default 0 (uses cg !! vt_id value))]>
                 (uses cg)) cg)
    = Ok tt cg1 →
  new_var (unique_var_id cg1) (code_options cg1) = (var, counter, co) →
  var ∈ co_varnames co →
  let store := create_instruction "STORE_FAST" None (Some (NameArg var)) in
  let load := create_instruction "LOAD_FAST" None (Some (NameArg var)) in
  let cg2 :=
    set_top_of_stack (Some (vt_id value))
      (set_output (_output cg1 ++ [create_dup_top; store])
         (set_tempvars (<[vt_id value := Some var]> (tempvars cg1))
            (set_code_options co (set_unique_var_id counter cg1)))) in
  __call__ (exec fuel) (inr value) true cg = Ok tt cg2
  ∧ (∃ reconstruction,
       _output cg1 = _output cg ++ reconstruction
       ∧ _output cg2 = _output cg ++ reconstruction ++ [create_dup_top; store])
  ∧ (∀ exec' cg3,
       tempvars cg3 !! vt_id value = Some (Some var) →
       top_of_stack_is cg3 value = false →
       var ∈ co_varnames (code_options cg3) →
       __call__ exec' (inr value) true cg3 =
         Ok tt
           (set_top_of_stack (Some (vt_id value))
              (set_output (_output cg3 ++ [load]) cg3)))
  ∧ (∀ inst exec',
       __call__ exec' (inr value) true
         (set_top_of_stack None (set_output (_output cg2 ++ [inst]) cg2)) =
         Ok tt
           (set_top_of_stack (Some (vt_id value))
              (set_output (_output cg2 ++ [inst; load]) cg2)))
  ∧ (∀ exec',
       __call__ exec' (inr value) true cg2 =
         Ok tt (set_output (_output cg2 ++ [create_dup_top]) cg2)).
Proof.
  intros Htos Hreg Hsrc Hconst Hclass Hrec Hvar Hin store load cg2.
  pose proof (preserves_call_reconstruct (exec fuel) (exec_preserves fuel)
                (inr value)
                (set_uses (<[vt_id value :=
                               S (default 0 (uses cg !! vt_id value))]>
                             (uses cg)) cg)) as Hle.
  rewrite Hrec in Hle. destruct Hle as [[reconstruction Hout] _ _ Hkeys _ _ _ _].
  simpl in Hout, Hkeys.
  assert (in_tempvars cg1 value = true) as Hreg1.
  { unfold in_tempvars. apply bool_decide_eq_true_2, Hkeys.
    rewrite Hreg. eauto. }
  split_and!.
  - unfold __call__, bind, get, tempvars_get. simpl. rewrite Htos, Hreg, Hsrc.
    unfold codegen_by_kind. rewrite Hconst.
    destruct Hclass as [-> | ->];
      unfold codegen_reconstruct, bind, modify, try_except_NotImplementedError,
        get;
      cbv beta iota; rewrite Hrec; cbv beta iota; rewrite Hreg1;
      unfold add_cache, output_append, bind, get, modify;
      simpl; rewrite Hvar;
      unfold create_store, bind, get, assert, modify, ret; simpl;
      rewrite bool_decide_eq_true_2 by done; simpl;
      subst cg2 store; by rewrite <- app_assoc.
  - exists reconstruction. split; [done|]. simpl. by rewrite Hout, <- app_assoc.
  - intros exec' cg3 Hslot Htos3 Hin3. by apply __call___tempvars_hit.
  - intros inst exec'.
    rewrite (__call___tempvars_hit exec' value var); simpl.
    + by rewrite <- !app_assoc.
    + by rewrite lookup_insert_eq.
    + done.
    + done.
  - intros exec'. by apply __call___top_of_stack_hit.
Qed.

(** The list registered for a temp slot: rebuilt, duplicated and stored into
    [tmp_0] on the first pass, loaded from [tmp_0] after another instruction
    was emitted. *)
Lemma structural_value_cached_in_temp_slot_witness :
  let env := example_env (3, 12) in
  let cg :=
    set_tempvars ({[10 := None]} : gmap nat (option string)) example_session in
  let build := create_instruction "BUILD_LIST" (Some 0) None in
  let copy := create_instruction "COPY" (Some 1) None in
  let store := create_instruction "STORE_FAST" None (Some (NameArg "tmp_0")) in
  let load := create_instruction "LOAD_FAST" None (Some (NameArg "tmp_0")) in
  let pop := create_instruction "POP_TOP" None None in
  let cg2 :=
    set_top_of_stack (Some 10)
      (set_output [build; copy; store]
         (set_tempvars ({[10 := Some "tmp_0"]} : gmap nat (option string))
            (set_code_options
               (Build_CodeOptions ["x"; "graph_out_0"; "tmp_0"] [])
               (set_unique_var_id 1
                  (set_uses ({[10 := 1]} : gmap nat nat) cg))))) in
  __call__ (env := env) (exec (env := env) 3) (inr example_list) true cg =
    Ok tt cg2
  ∧ __call__ (env := env) (exec (env := env) 3) (inr example_list) true
      (set_top_of_stack None (set_output (_output cg2 ++ [pop]) cg2)) =
      Ok tt
        (set_top_of_stack (Some 10)
           (set_output [build; copy; store; pop; load] cg2)).
Proof.
  intros env cg build copy store load pop cg2.
  destruct (structural_value_cached_in_temp_slot (env := env) 3 example_list
              cg
              (set_top_of_stack None
                 (set_output [build]
                    (set_uses ({[10 := 1]} : gmap nat nat) cg)))
              "tmp_0" 1
              (Build_CodeOptions ["x"; "graph_out_0"; "tmp_0"] []))
    as (Hfirst & _ & _ & Hlater & _);
    try reflexivity.
  - left; reflexivity.
  - apply (bool_decide_unpack _). vm_compute. exact I.
  - split; [exact Hfirst|]. exact (Hlater pop (exec (env := env) 3)).
Defined.

(** C4 as stated fails when the second pass follows the first at once: the
    value is still [top_of_stack], so the dispatcher emits [COPY 1] although
    the slot [tmp_0] is assigned; [LOAD_FAST tmp_0] is not emitted. *)
Lemma second_pass_right_after_first_duplicates :
  let env := example_env (3, 12) in
  let cg :=
    set_tempvars ({[10 := None]} : gmap nat (option string)) example_session in
  let build := create_instruction "BUILD_LIST" (Some 0) None in
  let copy := create_instruction "COPY" (Some 1) None in
  let store := create_instruction "STORE_FAST" None (Some (NameArg "tmp_0")) in
  let cg2 :=
    set_top_of_stack (Some 10)
      (set_output [build; copy; store]
         (set_tempvars ({[10 := Some "tmp_0"]} : gmap nat (option string))
            (set_code_options
               (Build_CodeOptions ["x"; "graph_out_0"; "tmp_0"] [])
               (set_unique_var_id 1
                  (set_uses ({[10 := 1]} : gmap nat nat) cg))))) in
  __call__ (env := env) (exec (env := env) 3) (inr example_list) true cg =
    Ok tt cg2
  ∧ tempvars cg2 !! vt_id example_list = Some (Some "tmp_0")
  ∧ __call__ (env := env) (exec (env := env) 3) (inr example_list) true cg2 =
      Ok tt (set_output [build; copy; store; copy] cg2).
Proof. repeat split; vm_compute; reflexivity. Qed.

(** ** The null placeholder *)



(** C10.  Before Python 3.13 [add_push_null] runs its generator on the
    session with [top_of_stack] set to [None]: there the dispatcher's test
    [self.top_of_stack is value] fails for every value, so a request of the
    generator for the value that was on top of the stack is not answered by a
    duplicate-top, and the result of [add_push_null] does not depend on what
    [top_of_stack] was.  The spliced instructions are those the generator
    emits from that session. *)
Theorem add_push_null_clears_top_of_stack_first `{env : Environment}
    (gen_fn : M unit) (call_function_ex : bool) (cg : PyCodegen) :
  version_lt sys_version_info (3, 13) = true →
  let old_len := length (_output cg) in
  let splice :=
    if call_function_ex then add_push_null_call_function_ex
    else bytecode_add_push_null in
  add_push_null gen_fn call_function_ex cg =
    match gen_fn (set_top_of_stack None cg) with
    | Ok _ cg1 =>
        Ok tt (set_output (take old_len (_output cg1)
                           ++ splice (drop old_len (_output cg1))) cg1)
    | Raise e cg1 => Raise e cg1
    | OutOfFuel => OutOfFuel
    end
  ∧ (∀ value, top_of_stack_is (set_top_of_stack None cg) value = false)
  ∧ (∀ tos,
       add_push_null gen_fn call_function_ex (set_top_of_stack tos cg) =
         add_push_null gen_fn call_function_ex cg).
Proof.
  intros Hlt old_len splice. split_and!.
  - rewrite add_push_null_unfold. unfold version_ge. by rewrite Hlt.
  - done.
  - intros tos. rewrite !add_push_null_unfold. by rewrite Hlt.
Qed.

(** On Python 3.12 a request for the list that is on top of the stack, made
    inside [add_push_null], rebuilds the list. *)
Lemma add_push_null_clears_top_of_stack_first_witness :
  let env := example_env (3, 12) in
  let cg := set_top_of_stack (Some 10) example_session in
  add_push_null (env := env)
    (__call__ (env := env) (exec (env := env) 3) (inr example_list) true)
    false cg =
    Ok tt
      (set_output
         [push_null_instruction;
          create_instruction "BUILD_LIST" (Some 0) None]
         (set_uses ({[10 := 1]} : gmap nat nat) cg)).
Proof.
  intros env cg.
  rewrite (proj1 (add_push_null_clears_top_of_stack_first (env := env)
                    (__call__ (env := env) (exec (env := env) 3)
                       (inr example_list) true)
                    false cg eq_refl)).
  reflexivity.
Defined.

(** ** Examples *)

(** From Python 3.13 on [top_of_stack] is not cleared before the generator
    runs: the same request is answered by [COPY 1], and the null follows. *)
Example add_push_null_313_duplicates :
  let env := example_env (3, 13) in
  let cg := set_top_of_stack (Some 10) example_session in
  add_push_null (env := env)
    (__call__ (env := env) (exec (env := env) 3) (inr example_list) true)
    false cg =
    Ok tt
      (set_output
         [create_instruction "COPY" (Some 1) None; push_null_instruction]
         example_session).
Proof. reflexivity. Qed.

(** [restore_stack] with [value_from_source=False]: the first value is
    rebuilt, the second one raises, and the flag is [True] again in the
    session the exception leaves behind. *)
Example restore_stack_raises_midway :
  let env := example_env (3, 12) in
  restore_stack (exec (env := env) 4)
    [inr example_list; inr example_unsupported] false example_session =
    Raise (Unsupported "reconstruct: UserDefinedObjectVariable()")
      (set_top_of_stack (Some 10)
         (set_uses ({[10 := 1; 13 := 1]} : gmap nat nat)
            (set_output [create_instruction "BUILD_LIST" (Some 0) None]
               example_session))).
Proof. vm_compute. reflexivity. Qed.

(** Two distinct tensors get the graph outputs 0 and 1, each read by a load
    of the output collection, the index and a subscript. *)
Example tensors_get_consecutive_graph_outputs :
  let env := example_env (3, 12) in
  let collection :=
    create_instruction "LOAD_FAST" None (Some (NameArg "graph_out_0")) in
  let const i :=
    create_instruction "LOAD_CONST" None (Some (ConstArg (PyInt i))) in
  let subscr := create_instruction "BINARY_SUBSCR" None None in
  foreach (exec (env := env) 4)
    [inr (example_tensor 20 7); inr (example_tensor 21 8)] example_session =
    Ok tt
      (set_top_of_stack (Some 21)
         (set_graph_outputs
            (<[8 := Build_GraphOutputEntry 1 (example_tensor 21 8)]>
               (<[7 := Build_GraphOutputEntry 0 (example_tensor 20 7)]> ∅))
            (set_output
               [collection; const 0%Z; subscr; collection; const 1%Z; subscr]
               example_session))).
Proof. vm_compute. reflexivity. Qed.

(** X3. Within a session, whatever is called on it, the graph-output table
    stays numbered 0, ..., size - 1 and keeps every entry it has. *)
Corollary exec_keeps_graph_outputs `{env : Environment}
    (fuel : nat) (op : CodegenOp) (cg cg' : PyCodegen) (e : Exn) :
  exec fuel op cg = Ok tt cg' ∨ exec fuel op cg = Raise e cg' →
  (graph_outputs_wf (graph_outputs cg) → graph_outputs_wf (graph_outputs cg'))
  ∧ (∀ k entry, graph_outputs cg !! k = Some entry →
                graph_outputs cg' !! k = Some entry).
Proof.
  intros Hexec. pose proof (exec_preserves fuel op cg) as Hle.
  assert (session_le cg cg') as [_ Hsub Hwf _ _ _ _ _].
  { by destruct Hexec as [Heq | Heq]; rewrite Heq in Hle. }
  split; [done|]. intros k entry Hk. by eapply lookup_weaken.
Qed.

(** ** What the cache keeps *)

Lemma session_keeps_refl cg : session_keeps cg cg.
Proof. constructor; eauto. Qed.

Lemma session_keeps_trans cg1 cg2 cg3 :
  session_keeps cg1 cg2 → session_keeps cg2 cg3 → session_keeps cg1 cg3.
Proof.
  intros [Hr1 Hs1 Hu1] [Hr2 Hs2 Hu2]. constructor.
  - intros k. by rewrite Hr2.
  - intros k var Hk. destruct (Hs1 k var Hk) as [var' Hk']. eauto.
  - intros k. etrans; [apply Hu1 | apply Hu2].
Qed.

(** A change of the session that leaves [tempvars] and [uses] alone. *)
Lemma session_keeps_frame cg cg' :
  tempvars cg' = tempvars cg → uses cg' = uses cg → session_keeps cg cg'.
Proof. intros Ht Hu. constructor; rewrite ?Ht, ?Hu; eauto. Qed.

Lemma session_keeps_uses_incr k cg :
  session_keeps cg
    (set_uses (<[k := S (default 0 (uses cg !! k))]> (uses cg)) cg).
Proof.
  constructor; simpl; eauto. intros k'.
  destruct (decide (k = k')) as [->|Hne].
  - rewrite lookup_insert_eq. simpl. lia.
  - by rewrite lookup_insert_ne.
Qed.

Lemma session_keeps_slot k var cg :
  is_Some (tempvars cg !! k) →
  session_keeps cg (set_tempvars (<[k := Some var]> (tempvars cg)) cg).
Proof.
  intros Hk. constructor; simpl; eauto.
  - intros k'. destruct (decide (k = k')) as [<-|Hne].
    + rewrite lookup_insert_eq. split; eauto.
    + by rewrite lookup_insert_ne.
  - intros k' var' Hk'. destruct (decide (k = k')) as [<-|Hne].
    + rewrite lookup_insert_eq. eauto.
    + rewrite lookup_insert_ne by done. eauto.
Qed.

Lemma keeps_ret {A} (a : A) : keeps (ret a).
Proof. intros cg. apply session_keeps_refl. Qed.

Lemma keeps_raise {A} e : keeps (raise (A := A) e).
Proof. intros cg. apply session_keeps_refl. Qed.

Lemma keeps_get : keeps get.
Proof. intros cg. apply session_keeps_refl. Qed.

Lemma keeps_bind {A B} (m : M A) (k : A → M B) :
  keeps m → (∀ a, keeps (k a)) → keeps (bind m k).
Proof.
  intros Hm Hk cg. unfold bind. specialize (Hm cg).
  destruct (m cg) as [a cg'| |]; try done.
  specialize (Hk a cg').
  destruct (k a cg'); try done; by eapply session_keeps_trans.
Qed.

Lemma keeps_modify (f : PyCodegen → PyCodegen) :
  (∀ cg, session_keeps cg (f cg)) → keeps (modify f).
Proof. intros Hf cg. apply Hf. Qed.

Lemma keeps_assert cond msg : keeps (assert cond msg).
Proof. destruct cond; [apply keeps_ret | apply keeps_raise]. Qed.

Lemma keeps_try_except {A} (body handler : M A) :
  keeps body → keeps handler →
  keeps (try_except_NotImplementedError body handler).
Proof.
  intros Hb Hh cg. unfold try_except_NotImplementedError. specialize (Hb cg).
  destruct (body cg) as [|e cg'|]; try done.
  destruct e; try done. specialize (Hh cg').
  destruct (handler cg'); try done; by eapply session_keeps_trans.
Qed.

Lemma keeps_try_finally {A} (body : M A) (final : PyCodegen → PyCodegen) :
  keeps body → (∀ cg, session_keeps cg (final cg)) →
  keeps (try_finally body final).
Proof.
  intros Hb Hf cg. unfold try_finally. specialize (Hb cg).
  destruct (body cg) as [a cg'|e cg'|]; try done;
    eapply session_keeps_trans; eauto.
Qed.

Create HintDb keeps.

#[local] Hint Resolve keeps_ret keeps_raise keeps_get keeps_assert
  session_keeps_refl session_keeps_uses_incr : keeps.

#[local] Hint Extern 1 (session_keeps _ _) =>
  apply session_keeps_frame; reflexivity : keeps.

Ltac keeps_step :=
  match goal with
  | |- keeps (bind _ _) => apply keeps_bind; [|intros ?]
  | |- keeps (try_except_NotImplementedError _ _) => apply keeps_try_except
  | |- keeps (try_finally _ _) => apply keeps_try_finally; [|intros ?]
  | |- keeps (if ?b then _ else _) => destruct b
  | |- keeps (match ?x with _ => _ end) => destruct x
  | |- keeps (modify _) => apply keeps_modify; intros ?
  | |- _ => solve [eauto with keeps]
  end.

Ltac solve_keeps := cbv zeta; repeat keeps_step.

Section KeepsMethods.

Context {env : Environment}.

Lemma keeps_clear_tos : keeps clear_tos.
Proof. unfold clear_tos. solve_keeps. Qed.

Lemma keeps_output_append inst : keeps (output_append inst).
Proof. unfold output_append. solve_keeps. Qed.

Lemma keeps_output_extend insts : keeps (output_extend insts).
Proof. unfold output_extend. solve_keeps. Qed.

#[local] Hint Resolve keeps_clear_tos keeps_output_append keeps_output_extend
  : keeps.

Lemma keeps_append_output inst : keeps (append_output inst).
Proof. unfold append_output. solve_keeps. Qed.

Lemma keeps_extend_output insts : keeps (extend_output insts).
Proof. unfold extend_output. solve_keeps. Qed.

Lemma keeps_create_load name : keeps (create_load name).
Proof. unfold create_load. solve_keeps. Qed.

Lemma keeps_create_store name : keeps (create_store name).
Proof. unfold create_store. solve_keeps. Qed.

Lemma keeps_create_load_global name add : keeps (create_load_global name add).
Proof. unfold create_load_global. solve_keeps. Qed.

Lemma keeps_create_load_const c : keeps (create_load_const c).
Proof. unfold create_load_const. solve_keeps. Qed.

Lemma keeps_create_load_const_unchecked c :
  keeps (create_load_const_unchecked c).
Proof. unfold create_load_const_unchecked. solve_keeps. Qed.

Lemma keeps_create_load_attr name : keeps (create_load_attr name).
Proof. unfold create_load_attr. solve_keeps. Qed.

#[local] Hint Resolve keeps_append_output keeps_extend_output
  keeps_create_load keeps_create_store keeps_create_load_global
  keeps_create_load_const keeps_create_load_const_unchecked
  keeps_create_load_attr : keeps.

Lemma keeps_load_attr name : keeps (load_attr name).
Proof. unfold load_attr. solve_keeps. Qed.

Lemma keeps_pop_top : keeps pop_top.
Proof. unfold pop_top. solve_keeps. Qed.

Lemma keeps_call_function nargs push_null :
  keeps (call_function nargs push_null).
Proof. unfold call_function. solve_keeps. Qed.

Lemma keeps_dup_top : keeps dup_top.
Proof. unfold dup_top. solve_keeps. Qed.

Lemma keeps_store varname : keeps (store varname).
Proof. unfold store. solve_keeps. Qed.

Lemma keeps_add_graph_output value : keeps (add_graph_output value).
Proof. unfold add_graph_output. solve_keeps. Qed.

Lemma keeps_graph_outputs_index key : keeps (graph_outputs_index key).
Proof. unfold graph_outputs_index. solve_keeps. Qed.

#[local] Hint Resolve keeps_add_graph_output keeps_graph_outputs_index
  : keeps.

Lemma keeps_load_graph_output index : keeps (load_graph_output index).
Proof. unfold load_graph_output. solve_keeps. Qed.

Lemma keeps_rot_n n : keeps (rot_n n).
Proof. unfold rot_n. solve_keeps. Qed.

Lemma keeps_add_push_null (gen_fn : M unit) call_function_ex :
  keeps gen_fn → keeps (add_push_null gen_fn call_function_ex).
Proof. intros Hgen. unfold add_push_null. solve_keeps. Qed.

(** [add_cache] for a value that is registered. *)
Lemma add_cache_keeps value cg :
  is_Some (tempvars cg !! vt_id value) →
  match add_cache value cg with
  | Ok _ cg' | Raise _ cg' => session_keeps cg cg'
  | OutOfFuel => True
  end.
Proof.
  intros Hreg. unfold add_cache, bind, get, modify. simpl.
  destruct (new_var _ _) as [[var counter] co]. simpl.
  pose proof (session_keeps_slot (vt_id value) var
                (set_code_options co (set_unique_var_id counter cg)) Hreg)
    as Hslot.
  assert (session_keeps cg
            (set_tempvars (<[vt_id value := Some var]> (tempvars cg))
               (set_code_options co (set_unique_var_id counter cg))))
    as Hkeeps.
  { eapply session_keeps_trans; [|exact Hslot].
    by apply session_keeps_frame. }
  unfold create_store, bind, get, assert, output_append, modify. simpl.
  case_bool_decide; simpl; [|done].
  eapply session_keeps_trans; [exact Hkeeps|]. by apply session_keeps_frame.
Qed.

End KeepsMethods.

#[local] Hint Resolve keeps_clear_tos keeps_output_append keeps_output_extend
  keeps_append_output keeps_extend_output keeps_create_load
  keeps_create_store keeps_create_load_global keeps_create_load_const
  keeps_create_load_const_unchecked keeps_create_load_attr keeps_load_attr
  keeps_pop_top keeps_call_function keeps_dup_top keeps_store
  keeps_add_graph_output keeps_graph_outputs_index keeps_load_graph_output
  keeps_rot_n : keeps.

Section KeepsDispatcher.

Context {env : Environment}.
Variable exec : CodegenOp → M unit.
Hypothesis exec_keeps : ∀ op, keeps (exec op).

Ltac solve_keeps_dispatch :=
  cbv zeta; repeat first [apply keeps_add_push_null | keeps_step].

Lemma keeps_self_call value allow_cache :
  keeps (self_call exec value allow_cache).
Proof. apply exec_keeps. Qed.

Lemma keeps_run_ops ops : keeps (run_ops exec ops).
Proof. induction ops; simpl; solve_keeps. Qed.

#[local] Hint Resolve keeps_self_call keeps_run_ops : keeps.

Lemma keeps_call_reconstruct value : keeps (call_reconstruct exec value).
Proof. unfold call_reconstruct. solve_keeps. Qed.

Lemma keeps_load_import_from module_name object_name :
  keeps (load_import_from exec module_name object_name).
Proof. unfold load_import_from. solve_keeps. Qed.

Lemma keeps_foreach items : keeps (foreach exec items).
Proof. induction items; simpl; solve_keeps. Qed.

#[local] Hint Resolve keeps_call_reconstruct keeps_load_import_from
  keeps_foreach : keeps.

Lemma keeps_restore_stack stack_values value_from_source_arg :
  keeps (restore_stack exec stack_values value_from_source_arg).
Proof. unfold restore_stack. solve_keeps. Qed.

Lemma keeps_codegen_graph_output_value value :
  keeps (codegen_graph_output_value exec value).
Proof. unfold codegen_graph_output_value. solve_keeps_dispatch. Qed.

Lemma keeps_codegen_reconstruct value allow_cache :
  keeps (codegen_reconstruct exec value allow_cache).
Proof.
  unfold codegen_reconstruct.
  apply keeps_bind; [solve_keeps|intros ?].
  apply keeps_bind; [solve_keeps|intros ?].
  intros cg. unfold bind, get. simpl.
  destruct (allow_cache && in_tempvars cg value) eqn:Hcache;
    [|apply session_keeps_refl].
  apply andb_true_iff in Hcache as [_ Hreg].
  unfold in_tempvars in Hreg. apply bool_decide_eq_true in Hreg.
  pose proof (add_cache_keeps value
                (set_output (_output cg ++ [create_dup_top]) cg) Hreg) as H.
  destruct (add_cache value _) as [[] cg'|e cg'|]; try done;
    (eapply session_keeps_trans; [|exact H]); by apply session_keeps_frame.
Qed.

#[local] Hint Resolve keeps_restore_stack keeps_codegen_graph_output_value
  keeps_codegen_reconstruct : keeps.

Lemma keeps_codegen_by_kind value allow_cache :
  keeps (codegen_by_kind exec value allow_cache).
Proof.
  unfold codegen_by_kind. solve_keeps_dispatch.
  all: match goal with |- keeps (_ ?parts) => induction parts end;
    solve_keeps.
Qed.

#[local] Hint Resolve keeps_codegen_by_kind : keeps.

Lemma keeps___call__ value allow_cache :
  keeps (__call__ exec value allow_cache).
Proof. unfold __call__. solve_keeps. Qed.

#[local] Hint Resolve keeps___call__ : keeps.

Lemma keeps_step_op op : keeps (step exec op).
Proof. destruct op; simpl; solve_keeps_dispatch. Qed.

End KeepsDispatcher.

Lemma exec_keeps `{env : Environment} fuel op : keeps (exec fuel op).
Proof.
  revert op. induction fuel as [|fuel IH]; intros op; [done|].
  simpl. by apply keeps_step_op.
Qed.

(** ** Invariants of every call on the session *)

(** X1. Whatever is called on the session, and whether the call returns or
    raises, the instruction stream it leaves starts with the stream it
    found: instructions are only ever added at the end, also by
    [add_push_null], which takes the generated instructions out and puts
    them back spliced. *)
Theorem call_only_appends_to_output `{env : Environment}
    (fuel : nat) (op : CodegenOp) (cg : PyCodegen) :
  match exec fuel op cg with
  | Ok _ cg' | Raise _ cg' => ∃ added, _output cg' = _output cg ++ added
  | OutOfFuel => True
  end.
Proof.
  pose proof (exec_preserves fuel op cg) as Hle.
  destruct (exec fuel op cg) as [[] cg'|e cg'|]; try done;
    by destruct Hle as [[added ?] _ _ _ _ _ _ _]; exists added.
Qed.

(** X2. No call on the session changes its configuration: the flag
    [value_from_source], the source overrides, the name of the graph-output
    variable and the root module are the same after the call as before it,
    whether it returns or raises.  In particular the narrowing of
    [value_from_source] by a [restore_stack] issued from inside a
    reconstruction is undone before the reconstruction goes on. *)
Theorem call_keeps_configuration `{env : Environment}
    (fuel : nat) (op : CodegenOp) (cg : PyCodegen) :
  match exec fuel op cg with
  | Ok _ cg' | Raise _ cg' =>
      value_from_source cg' = value_from_source cg
      ∧ overridden_sources cg' = overridden_sources cg
      ∧ graph_output_var cg' = graph_output_var cg
      ∧ root cg' = root cg
  | OutOfFuel => True
  end.
Proof.
  pose proof (exec_preserves fuel op cg) as Hle.
  destruct (exec fuel op cg) as [[] cg'|e cg'|]; try done;
    by destruct Hle.
Qed.

(** A request for two tensors adds their entries and keeps the one that was
    there. *)
Lemma exec_keeps_graph_outputs_witness :
  let env := example_env (3, 12) in
  let cg :=
    set_graph_outputs
      (<[7 := Build_GraphOutputEntry (size (∅ : gmap nat GraphOutputEntry))
                (example_tensor 20 7)]> ∅)
      example_session in
  ∃ cg',
    exec (env := env) 5 (OpForeach [inr (example_tensor 21 8)]) cg = Ok tt cg'
    ∧ graph_outputs_wf (graph_outputs cg')
    ∧ graph_outputs cg' !! 7 =
        Some (Build_GraphOutputEntry 0 (example_tensor 20 7)).
Proof.
  intros env cg.
  destruct (exec (env := env) 5 (OpForeach [inr (example_tensor 21 8)]) cg)
    as [[] cg'|e cg'|] eqn:Hexec; [|discriminate Hexec..].
  exists cg'. split; [reflexivity|].
  destruct (exec_keeps_graph_outputs (env := env) 5
              (OpForeach [inr (example_tensor 21 8)]) cg cg'
              NotImplementedError (or_introl Hexec)) as [Hwf Hkeep].
  split.
  - apply Hwf, graph_outputs_wf_insert;
      [reflexivity | apply graph_outputs_wf_empty].
  - apply Hkeep. reflexivity.
Defined.


(** A request for a source leaves [top_of_stack] empty. *)
Lemma source_request_clears_top_of_stack `{env : Environment}
    (exec : CodegenOp → M unit) (source : Source) (allow_cache : bool)
    (cg cg' : PyCodegen) :
  __call__ exec (inl source) allow_cache cg = Ok tt cg' →
  top_of_stack cg' = None.
Proof.
  unfold __call__, bind, get, clear_tos, modify. cbv beta iota.
  match goal with
  | |- context [call_reconstruct ?e ?v ?c] =>
      destruct (call_reconstruct e v c) as [[] cg1| |]
  end; [|done..].
  by intros [= <-].
Qed.

(** X5. After a request that returns, [top_of_stack] is the requested value,
    except when the request was for a source or was answered from the
    value's source: then it is [None]. *)
Theorem top_of_stack_after_request `{env : Environment}
    (fuel : nat) (value : Source + VariableTracker) (allow_cache : bool)
    (cg cg' : PyCodegen) :
  __call__ (exec fuel) value allow_cache cg = Ok tt cg' →
  top_of_stack cg' =
    match value with
    | inl _ => None
    | inr value =>
        if allow_cache && top_of_stack_is cg value
        then Some (vt_id value)
        else
          match (if allow_cache then tempvars_get cg value else None),
                source_for_codegen cg value allow_cache with
          | None, Some _ => None
          | _, _ => Some (vt_id value)
          end
    end.
Proof.
  destruct value as [source|value].
  { apply source_request_clears_top_of_stack. }
  unfold __call__, bind, get. simpl.
  destruct (allow_cache && top_of_stack_is cg value) eqn:Htos.
  { intros [= <-]. simpl.
    apply andb_true_iff in Htos as [_ Htos].
    unfold top_of_stack_is in Htos. by apply bool_decide_eq_true in Htos. }
  destruct (if allow_cache then tempvars_get cg value else None)
    as [name|] eqn:Htmp.
  { destruct (create_load name cg) as [inst cg1| |]; [|done..].
    simpl. by intros [= <-]. }
  destruct (source_for_codegen cg value allow_cache) as [source|].
  - unfold self_call. destruct fuel as [|fuel]; [done|]. intros Hsrc.
    by apply (source_request_clears_top_of_stack (exec fuel) source true
                cg cg').
  - destruct (codegen_by_kind _ value allow_cache cg) as [[] cg1| |];
      [|done..].
    simpl. by intros [= <-].
Qed.

(** The mutated list is read from its source, which leaves nothing on
    record as top of the stack. *)
Lemma top_of_stack_after_request_witness :
  let env := example_env (3, 12) in
  ∃ cg',
    __call__ (env := env) (exec (env := env) 3) (inr example_mutated_list)
      true example_session = Ok tt cg'
    ∧ top_of_stack cg' = None.
Proof.
  intros env.
  destruct (__call__ (env := env) (exec (env := env) 3)
              (inr example_mutated_list) true example_session)
    as [[] cg'|e cg'|] eqn:Hcall; [|discriminate Hcall..].
  exists cg'. split; [reflexivity|].
  exact (top_of_stack_after_request (env := env) 3
           (inr example_mutated_list) true example_session cg' Hcall).
Defined.

(** ** The branches of the dispatcher *)

Lemma set_graph_outputs_same cg : set_graph_outputs (graph_outputs cg) cg = cg.
Proof. by destruct cg. Qed.

Lemma set_code_options_same cg : set_code_options (code_options cg) cg = cg.
Proof. by destruct cg. Qed.

(** X6. A value that is a Python constant safe to inline, asked for without
    a cache hit and not generated from a source, is answered by the single
    constant load of [create_load_const] and becomes [top_of_stack], whatever
    its class: the test for constants comes before the tests on the class,
    so no graph output is allotted, [reconstruct] is not run and no use is
    counted. *)
Theorem safe_constant_is_loaded `{env : Environment}
    (exec : CodegenOp → M unit) (value : VariableTracker) (c : PyConst)
    (allow_cache : bool) (cg : PyCodegen) :
  allow_cache && top_of_stack_is cg value = false →
  (if allow_cache then tempvars_get cg value else None) = None →
  source_for_codegen cg value allow_cache = None →
  vt_python_constant value = Some c →
  is_safe_constant c = true →
  __call__ exec (inr value) allow_cache cg =
    Ok tt
      (set_top_of_stack (Some (vt_id value))
         (set_output (_output cg ++ [bytecode_create_load_const c true]) cg)).
Proof.
  intros Htos Htmp Hsrc Hconst Hsafe.
  unfold __call__, bind, get. simpl. rewrite Htos, Htmp, Hsrc.
  unfold codegen_by_kind, safe_python_constant. by rewrite Hconst, Hsafe.
Qed.

(** The constant [5], whose [reconstruct] would raise, is loaded. *)
Lemma safe_constant_is_loaded_witness :
  let env := example_env (3, 12) in
  __call__ (env := env) (exec (env := env) 0) (inr example_constant) true
    example_session =
    Ok tt
      (set_top_of_stack (Some 16)
         (set_output
            [create_instruction "LOAD_CONST" None (Some (ConstArg (PyInt 5)))]
            example_session)).
Proof.
  intros env.
  apply (safe_constant_is_loaded (env := env) (exec (env := env) 0)
           example_constant (PyInt 5) true example_session);
    reflexivity.
Defined.

Lemma create_load_ok (name : string) (cg : PyCodegen) :
  name ∈ co_varnames (code_options cg) →
  create_load name cg =
    Ok (create_instruction "LOAD_FAST" None (Some (NameArg name))) cg.
Proof.
  intros Hin. unfold create_load, bind, get, assert. cbv beta iota.
  by rewrite bool_decide_eq_true_2.
Qed.

(** [load_graph_output] when the graph-output variable is a known local. *)
Lemma load_graph_output_ok `{env : Environment}
    (i : nat) (name : string) (cg : PyCodegen) :
  graph_output_var cg = Some name →
  name ∈ co_varnames (code_options cg) →
  load_graph_output i cg =
    Ok tt
      (set_output
         (_output cg
          ++ [create_instruction "LOAD_FAST" None (Some (NameArg name));
              bytecode_create_load_const (PyInt (Z.of_nat i)) true;
              create_instruction "BINARY_SUBSCR" None None]) cg).
Proof.
  intros Hvar Hin.
  unfold load_graph_output, bind, get. cbv beta iota.
  rewrite Hvar, create_load_ok by done.
  unfold output_append, modify, create_load_const, ret. simpl.
  by rewrite <- !app_assoc.
Qed.

(** X7. A tensor (or a symbolic number that is not a float, or an
    unspecialized scalar that needs no unwrapping) asked for without a cache
    hit and not generated from a source gets the graph output of its proxy:
    the index it already has, or else the number of entries so far, under
    which it is then entered.  The request emits the load of the graph-output
    variable, the constant index and [BINARY_SUBSCR], makes the value
    [top_of_stack], and never fails on the table lookup.  It needs the
    graph-output variable to be a known local. *)
Theorem tensor_is_loaded_from_graph_output `{env : Environment}
    (exec : CodegenOp → M unit) (value : VariableTracker)
    (allow_cache : bool) (name : string) (cg : PyCodegen) :
  allow_cache && top_of_stack_is cg value = false →
  (if allow_cache then tempvars_get cg value else None) = None →
  source_for_codegen cg value allow_cache = None →
  safe_python_constant value = None →
  vt_class value = TensorVariable
  ∨ vt_class value = UnspecializedPythonVariable false
  ∨ (∃ as_tensor, vt_class value = SymNodeVariable false as_tensor) →
  graph_output_var cg = Some name →
  name ∈ co_varnames (code_options cg) →
  let key := vt_proxy_id value in
  let i :=
    match graph_outputs cg !! key with
    | Some entry => index entry
    | None => size (graph_outputs cg)
    end in
  let table :=
    match graph_outputs cg !! key with
    | Some _ => graph_outputs cg
    | None => <[key := Build_GraphOutputEntry i value]> (graph_outputs cg)
    end in
  __call__ exec (inr value) allow_cache cg =
    Ok tt
      (set_top_of_stack (Some (vt_id value))
         (set_output
            (_output cg
             ++ [create_instruction "LOAD_FAST" None (Some (NameArg name));
                 bytecode_create_load_const (PyInt (Z.of_nat i)) true;
                 create_instruction "BINARY_SUBSCR" None None])
            (set_graph_outputs table cg))).
Proof.
  intros Htos Htmp Hsrc Hconst Hclass Hvar Hin key i table.
  unfold __call__, bind, get. simpl. rewrite Htos, Htmp, Hsrc.
  unfold codegen_by_kind. rewrite Hconst.
  assert (codegen_graph_output_value exec value cg =
            Ok tt
              (set_output
                 (_output cg
                  ++ [create_instruction "LOAD_FAST" None
                        (Some (NameArg name));
                      bytecode_create_load_const (PyInt (Z.of_nat i)) true;
                      create_instruction "BINARY_SUBSCR" None None])
                 (set_graph_outputs table cg))) as Hslot.
  { assert ((let* graph_outputs_key := add_graph_output value in
             let* i := graph_outputs_index graph_outputs_key in
             load_graph_output i) cg = Ok tt
              (set_output
                 (_output cg
                  ++ [create_instruction "LOAD_FAST" None
                        (Some (NameArg name));
                      bytecode_create_load_const (PyInt (Z.of_nat i)) true;
                      create_instruction "BINARY_SUBSCR" None None])
                 (set_graph_outputs table cg))) as Hplain.
    { unfold add_graph_output, graph_outputs_index, bind, get, modify, ret.
      simpl. fold key. subst i table.
      destruct (graph_outputs cg !! key) as [entry|] eqn:Hkey; simpl.
      - rewrite Hkey, set_graph_outputs_same. by apply load_graph_output_ok.
      - rewrite lookup_insert_eq. simpl.
        by apply (load_graph_output_ok _ name
                    (set_graph_outputs
                       (<[key := Build_GraphOutputEntry
                                   (size (graph_outputs cg)) value]>
                          (graph_outputs cg)) cg)). }
    unfold codegen_graph_output_value.
    destruct Hclass as [-> | [-> | [as_tensor ->]]]; exact Hplain. }
  destruct Hclass as [Hc | [Hc | [as_tensor Hc]]]; rewrite Hc in *;
    by rewrite Hslot.
Qed.

(** A second tensor, in a table that has one entry, is loaded from index 1. *)
Lemma tensor_is_loaded_from_graph_output_witness :
  let env := example_env (3, 12) in
  let cg :=
    set_graph_outputs
      (<[7 := Build_GraphOutputEntry 0 (example_tensor 20 7)]> ∅)
      example_session in
  __call__ (env := env) (exec (env := env) 0) (inr (example_tensor 21 8))
    true cg =
    Ok tt
      (set_top_of_stack (Some 21)
         (set_output
            [create_instruction "LOAD_FAST" None
               (Some (NameArg "graph_out_0"));
             create_instruction "LOAD_CONST" None (Some (ConstArg (PyInt 1)));
             create_instruction "BINARY_SUBSCR" None None]
            (set_graph_outputs
               (<[8 := Build_GraphOutputEntry 1 (example_tensor 21 8)]>
                  (<[7 := Build_GraphOutputEntry 0 (example_tensor 20 7)]> ∅))
               example_session))).
Proof.
  intros env cg.
  rewrite (tensor_is_loaded_from_graph_output (env := env)
             (exec (env := env) 0) (example_tensor 21 8) true "graph_out_0"
             cg);
    try reflexivity.
  - left; reflexivity.
  - apply (bool_decide_unpack _). vm_compute. exact I.
Defined.

(** ** Attribute names *)

Lemma bind_eq {A B} (m : M A) (k : A → M B) (cg : PyCodegen) :
  bind m k cg =
    match m cg with
    | Ok a cg' => k a cg'
    | Raise e cg' => Raise e cg'
    | OutOfFuel => OutOfFuel
    end.
Proof. reflexivity. Qed.

Lemma ret_eq {A} (a : A) (cg : PyCodegen) : ret a cg = Ok a cg.
Proof. reflexivity. Qed.

Lemma get_eq (cg : PyCodegen) : get cg = Ok cg cg.
Proof. reflexivity. Qed.

Lemma modify_eq (f : PyCodegen → PyCodegen) (cg : PyCodegen) :
  modify f cg = Ok tt (f cg).
Proof. reflexivity. Qed.

Lemma output_append_eq (inst : Instruction) (cg : PyCodegen) :
  output_append inst cg = Ok tt (set_output (_output cg ++ [inst]) cg).
Proof. reflexivity. Qed.

Lemma output_extend_eq (insts : list Instruction) (cg : PyCodegen) :
  output_extend insts cg = Ok tt (set_output (_output cg ++ insts) cg).
Proof. reflexivity. Qed.

(** Runs the binds of the goal one after the other, outermost first. *)
Ltac run_binds :=
  repeat first
    [ rewrite bind_eq | rewrite ret_eq | rewrite get_eq | rewrite modify_eq
    | rewrite output_append_eq | rewrite output_extend_eq
    | progress cbv beta iota ].

Lemma create_load_attr_eq (name : string) (cg : PyCodegen) :
  create_load_attr name cg =
    Ok (load_attr_instruction name)
       (set_code_options (add_co_name name (code_options cg)) cg).
Proof.
  unfold create_load_attr, add_co_name, bind, get, modify, ret.
  cbv beta iota. case_bool_decide; simpl; [|done].
  by rewrite set_code_options_same.
Qed.

Lemma add_co_name_elem (name : string) (co : CodeOptions) :
  name ∈ co_names (add_co_name name co).
Proof.
  unfold add_co_name. case_bool_decide; simpl; [done|].
  apply elem_of_app. right. by apply list_elem_of_singleton.
Qed.

Lemma add_co_name_mono (name n : string) (co : CodeOptions) :
  n ∈ co_names co → n ∈ co_names (add_co_name name co).
Proof.
  intros Hn. unfold add_co_name. case_bool_decide; simpl; [done|].
  apply elem_of_app. by left.
Qed.

Lemma add_co_name_NoDup (name : string) (co : CodeOptions) :
  NoDup (co_names co) → NoDup (co_names (add_co_name name co)).
Proof.
  intros Hnd. unfold add_co_name. case_bool_decide as Hin; simpl; [done|].
  apply NoDup_app. split_and!; [done| |apply NoDup_singleton].
  intros x Hx ->%list_elem_of_singleton. done.
Qed.

Lemma add_co_name_idem (name : string) (co : CodeOptions) :
  add_co_name name (add_co_name name co) = add_co_name name co.
Proof.
  unfold add_co_name at 1.
  by rewrite bool_decide_eq_true_2 by apply add_co_name_elem.
Qed.

(** X9. [create_load_attr] never fails and answers the [LOAD_ATTR] of the
    name.  It enters the name into [co_names] only when it is not there:
    afterwards the name is in [co_names], every name that was there still
    is, a list without duplicates stays without duplicates, and calling it
    again for the same name changes nothing any more.  [co_varnames] and the
    rest of the session are untouched. *)
Theorem create_load_attr_registers_once (name : string) (cg : PyCodegen) :
  let cg' := set_code_options (add_co_name name (code_options cg)) cg in
  create_load_attr name cg = Ok (load_attr_instruction name) cg'
  ∧ create_load_attr name cg' = Ok (load_attr_instruction name) cg'
  ∧ name ∈ co_names (code_options cg')
  ∧ (∀ n, n ∈ co_names (code_options cg) → n ∈ co_names (code_options cg'))
  ∧ (NoDup (co_names (code_options cg)) →
     NoDup (co_names (code_options cg')))
  ∧ co_varnames (code_options cg') = co_varnames (code_options cg)
  ∧ length (co_names (code_options cg'))
      ≤ S (length (co_names (code_options cg))).
Proof.
  intros cg'. split_and!.
  - apply create_load_attr_eq.
  - rewrite create_load_attr_eq. f_equal. subst cg'.
    unfold set_code_options. simpl. by rewrite add_co_name_idem.
  - apply add_co_name_elem.
  - intros n. apply add_co_name_mono.
  - apply add_co_name_NoDup.
  - simpl. unfold add_co_name. by case_bool_decide.
  - simpl. unfold add_co_name. case_bool_decide; simpl; [lia|].
    rewrite length_app. simpl. lia.
Qed.

(** The loop [for part in parts: output.append(self.create_load_attr(part))]
    of the module branch. *)
Lemma load_attr_loop (parts : list string) (cg : PyCodegen) :
  (fix attrs (parts : list string) : M unit :=
     match parts with
     | [] => ret tt
     | part :: parts =>
         (let* inst := create_load_attr part in output_append inst) >>
         attrs parts
     end) parts cg =
    Ok tt
      (set_output (_output cg ++ map load_attr_instruction parts)
         (set_code_options
            (foldl (λ co part, add_co_name part co) (code_options cg) parts)
            cg)).
Proof.
  revert cg. induction parts as [|part parts IH]; intros cg.
  - simpl. unfold ret. rewrite app_nil_r. by destruct cg.
  - run_binds. rewrite create_load_attr_eq. run_binds. rewrite IH. simpl.
    by rewrite <- app_assoc.
Qed.

(** X8. A module value asked for without a cache hit and not generated from
    a source is loaded along the dotted path of its key.  If the first part
    is a local, that local is loaded and one [LOAD_ATTR] follows for each
    further part.  If not, the root module is loaded as an unchecked
    constant and one [LOAD_ATTR] follows for every part, the first one
    included; without a root module the request raises [AssertionError] and
    leaves the session as it was.  The parts loaded as attributes are
    entered into [co_names], and the value becomes [top_of_stack]. *)
Theorem module_is_loaded_along_its_key `{env : Environment}
    (exec : CodegenOp → M unit) (value : VariableTracker)
    (allow_cache : bool) (module_key first : string) (rest : list string)
    (cg : PyCodegen) :
  allow_cache && top_of_stack_is cg value = false →
  (if allow_cache then tempvars_get cg value else None) = None →
  source_for_codegen cg value allow_cache = None →
  safe_python_constant value = None →
  vt_class value = NNModuleVariable module_key →
  split_dot module_key = (first, rest) →
  let loaded base attrs :=
    Ok tt
      (set_top_of_stack (Some (vt_id value))
         (set_output (_output cg ++ base :: map load_attr_instruction attrs)
            (set_code_options
               (foldl (λ co part, add_co_name part co) (code_options cg)
                  attrs) cg))) in
  __call__ exec (inr value) allow_cache cg =
    if bool_decide (first ∈ co_varnames (code_options cg))
    then
      loaded (create_instruction "LOAD_FAST" None (Some (NameArg first))) rest
    else
      match root cg with
      | Some root_module =>
          loaded (bytecode_create_load_const root_module false)
            (first :: rest)
      | None => Raise (AssertionError "") cg
      end.
Proof.
  intros Htos Htmp Hsrc Hconst Hclass Hsplit loaded.
  unfold __call__, bind, get. simpl. rewrite Htos, Htmp, Hsrc.
  unfold codegen_by_kind. rewrite Hconst, Hclass, Hsplit.
  run_binds. case_bool_decide as Hlocal.
  - run_binds. rewrite create_load_ok by done. run_binds.
    rewrite load_attr_loop. subst loaded. simpl.
    by rewrite <- app_assoc.
  - destruct (root cg) as [root_module|]; [|done].
    unfold create_load_const_unchecked. run_binds.
    rewrite create_load_attr_eq. run_binds.
    rewrite load_attr_loop. subst loaded. simpl.
    by rewrite <- !app_assoc.
Qed.

(** The module [x.layer.weight]: the local [x], then the two attributes. *)
Lemma module_is_loaded_along_its_key_witness :
  let env := example_env (3, 12) in
  __call__ (env := env) (exec (env := env) 0) (inr example_module) true
    example_session =
    Ok tt
      (set_top_of_stack (Some 15)
         (set_output
            [create_instruction "LOAD_FAST" None (Some (NameArg "x"));
             load_attr_instruction "layer";
             load_attr_instruction "weight"]
            (set_code_options
               (Build_CodeOptions ["x"; "graph_out_0"] ["layer"; "weight"])
               example_session))).
Proof.
  intros env.
  rewrite (module_is_loaded_along_its_key (env := env) (exec (env := env) 0)
             example_module true "x.layer.weight" "x" ["layer"; "weight"]
             example_session);
    reflexivity.
Defined.

Lemma mapM_create_load_attr (parts : list string) (cg : PyCodegen) :
  mapM create_load_attr parts cg =
    Ok (map load_attr_instruction parts)
       (set_code_options
          (foldl (λ co part, add_co_name part co) (code_options cg) parts)
          cg).
Proof.
  revert cg. induction parts as [|part parts IH]; intros cg; simpl.
  - rewrite ret_eq. by destruct cg.
  - run_binds. rewrite create_load_attr_eq. run_binds. by rewrite IH.
Qed.

Lemma split_dot_list_cons (c : ascii) (rest : string) :
  split_dot_list (String c rest) =
    if Ascii.eqb c "."%char then "" :: split_dot_list rest
    else match split_dot_list rest with
         | part :: parts => String c part :: parts
         | [] => [String c ""]
         end.
Proof.
  unfold split_dot_list. simpl. destruct (split_dot rest) as [part parts].
  by destruct (Ascii.eqb c ".").
Qed.

Lemma split_dot_list_nonempty (names : string) : split_dot_list names ≠ [].
Proof. unfold split_dot_list. by destruct (split_dot names). Qed.

(** X10. [create_load_attrs] never fails.  It answers one [LOAD_ATTR] for
    each part of the dotted name, in order, and enters the parts into
    [co_names]; the stream and the rest of the session are untouched.  The
    parts are those between the dots: there is one more part than there are
    dots, no part contains a dot, and the parts joined by dots give the name
    back. *)
Theorem create_load_attrs_follows_the_dots (names : string) (cg : PyCodegen) :
  let parts := split_dot_list names in
  create_load_attrs names cg =
    Ok (map load_attr_instruction parts)
       (set_code_options
          (foldl (λ co part, add_co_name part co) (code_options cg) parts)
          cg)
  ∧ join_dot parts = names
  ∧ length parts =
      S (length (filter (λ c, c = "."%char) (list_ascii_of_string names)))
  ∧ Forall (λ part, "."%char ∉ list_ascii_of_string part) parts.
Proof.
  intros parts. split_and!.
  - apply mapM_create_load_attr.
  - subst parts. induction names as [|c rest IH]; [done|].
    rewrite split_dot_list_cons.
    pose proof (split_dot_list_nonempty rest) as Hne.
    destruct (Ascii.eqb c ".") eqn:Hc.
    + apply Ascii.eqb_eq in Hc as ->.
      destruct (split_dot_list rest) as [|part parts]; [done|].
      change (join_dot ("" :: part :: parts))
        with (String "."%char (join_dot (part :: parts))).
      by rewrite IH.
    + destruct (split_dot_list rest) as [|part [|part' parts]]; [done|..].
      * simpl in *. by rewrite IH.
      * change (join_dot (String c part :: part' :: parts))
          with (String c (join_dot (part :: part' :: parts))).
        by rewrite IH.
  - subst parts. induction names as [|c rest IH]; [done|].
    rewrite split_dot_list_cons.
    pose proof (split_dot_list_nonempty rest) as Hne.
    simpl list_ascii_of_string. rewrite filter_cons.
    destruct (Ascii.eqb c ".") eqn:Hc.
    + apply Ascii.eqb_eq in Hc as ->.
      rewrite decide_True by done. simpl. by rewrite IH.
    + apply Ascii.eqb_neq in Hc. rewrite decide_False by done.
      destruct (split_dot_list rest) as [|part parts]; [done|].
      simpl in *. done.
  - subst parts. induction names as [|c rest IH].
    + repeat constructor. simpl. by intros ?%elem_of_nil.
    + rewrite split_dot_list_cons.
      pose proof (split_dot_list_nonempty rest) as Hne.
      destruct (Ascii.eqb c ".") eqn:Hc.
      * constructor; [|done]. simpl. by intros ?%elem_of_nil.
      * apply Ascii.eqb_neq in Hc.
        destruct (split_dot_list rest) as [|part parts]; [done|].
        apply Forall_cons in IH as [Hpart Hparts].
        constructor; [|done]. simpl.
        intros [?|?]%elem_of_cons; [congruence|done].
Qed.

(** ** Names of globals *)

Lemma sub_non_word_chars (in_run : bool) (name : string) :
  Forall (λ c, is_word_char c = true)
    (list_ascii_of_string (sub_non_word in_run name)).
Proof.
  revert in_run. induction name as [|c rest IH]; intros in_run; simpl.
  - constructor.
  - destruct (is_word_char c) eqn:Hc; simpl.
    + by constructor.
    + destruct in_run; simpl; [done|]. by constructor.
Qed.

Lemma sub_non_word_id (in_run : bool) (name : string) :
  Forall (λ c, is_word_char c = true) (list_ascii_of_string name) →
  sub_non_word in_run name = name.
Proof.
  revert in_run. induction name as [|c rest IH]; intros in_run; simpl; [done|].
  intros [Hc Hrest]%Forall_cons. rewrite Hc. by rewrite IH.
Qed.

(** X11. The name under which [setup_globally_cached] stores a value
    consists of letters, digits and underscores only, whatever name it is
    given; a name that already does is kept as it is, so cleaning a name a
    second time changes nothing. *)
Theorem global_name_is_an_identifier (name : string) :
  Forall (λ c, is_word_char c = true)
    (list_ascii_of_string (sub_non_word false name))
  ∧ sub_non_word false (sub_non_word false name) = sub_non_word false name
  ∧ (Forall (λ c, is_word_char c = true) (list_ascii_of_string name) →
     sub_non_word false name = name).
Proof.
  split_and!.
  - apply sub_non_word_chars.
  - apply sub_non_word_id, sub_non_word_chars.
  - apply sub_non_word_id.
Qed.

(** X12. [setup_globally_cached] stores the value under the cleaned name
    when the name is free, accepts a name that already holds the same
    object, and raises [AssertionError], leaving the session and the
    globals as they were, when the name holds another object; two names
    that clean to the same identifier meet in the same global.  When it
    returns, the global holds the value, the other globals are as before,
    and the one instruction answered is the [LOAD_GLOBAL] of the cleaned
    name.  It needs [update_co_names] to register the name. *)
Theorem setup_globally_cached_stores_once `{env : Environment}
    (name : string) (value : nat) (f_globals : gmap string nat)
    (cg : PyCodegen) :
  (∀ n co, n ∈ co_names (update_co_names n co)) →
  let name' := sub_non_word false name in
  let load := create_instruction "LOAD_GLOBAL" None (Some (NameArg name')) in
  let cg' :=
    set_code_options (update_co_names name' (code_options cg)) cg in
  setup_globally_cached name value f_globals cg =
    match f_globals !! name' with
    | Some known =>
        if bool_decide (known = value)
        then Ok ([load], f_globals) cg'
        else Raise (AssertionError "") cg
    | None => Ok ([load], <[name' := value]> f_globals) cg'
    end
  ∧ (∀ insts globals cg1,
       setup_globally_cached name value f_globals cg = Ok (insts, globals) cg1 →
       insts = [load]
       ∧ globals !! name' = Some value
       ∧ (∀ other, other ≠ name' → globals !! other = f_globals !! other)
       ∧ ∃ cg2,
           setup_globally_cached name value globals cg1 =
             Ok ([load], globals) cg2).
Proof.
  intros Hreg name' load cg'.
  assert (∀ cg0,
            create_load_global name' true cg0 =
              Ok load
                (set_code_options
                   (update_co_names name' (code_options cg0)) cg0))
    as Hload.
  { intros cg0. unfold create_load_global. run_binds. unfold assert. simpl.
    by rewrite bool_decide_eq_true_2 by apply Hreg. }
  assert (∀ globals cg0,
            setup_globally_cached name value globals cg0 =
              match globals !! name' with
              | Some known =>
                  if bool_decide (known = value)
                  then Ok ([load], globals)
                         (set_code_options
                            (update_co_names name' (code_options cg0)) cg0)
                  else Raise (AssertionError "") cg0
              | None =>
                  Ok ([load], <[name' := value]> globals)
                    (set_code_options
                       (update_co_names name' (code_options cg0)) cg0)
              end) as Heq.
  { intros globals cg0. unfold setup_globally_cached. fold name'.
    destruct (globals !! name') as [known|].
    - unfold assert. case_bool_decide; run_binds; [|done].
      by rewrite Hload.
    - run_binds. by rewrite Hload. }
  split; [apply Heq|].
  intros insts globals cg1. rewrite Heq.
  destruct (f_globals !! name') as [known|] eqn:Hknown.
  - case_bool_decide as Hsame; [|done]. intros [= <- <- <-]. subst known.
    split_and!; [done..|].
    eexists. rewrite Heq, Hknown. by rewrite bool_decide_eq_true_2.
  - intros [= <- <- <-]. split_and!; [done| |..].
    + by rewrite lookup_insert_eq.
    + intros other Hother. by rewrite lookup_insert_ne.
    + eexists. rewrite Heq, lookup_insert_eq.
      rewrite bool_decide_eq_true_2 by done. reflexivity.
Qed.

(** The name [torch.nn] is stored as [torch_nn]; [torch-nn] with another
    object then fails. *)
Lemma setup_globally_cached_stores_once_witness :
  let env := example_env (3, 12) in
  let load :=
    create_instruction "LOAD_GLOBAL" None (Some (NameArg "torch_nn")) in
  let cg' :=
    set_code_options (Build_CodeOptions ["x"; "graph_out_0"] ["torch_nn"])
      example_session in
  setup_globally_cached (env := env) "torch.nn" 7 ∅ example_session =
    Ok ([load], {["torch_nn" := 7]}) cg'
  ∧ setup_globally_cached (env := env) "torch-nn" 8 {["torch_nn" := 7]} cg' =
      Raise (AssertionError "") cg'.
Proof.
  intros env load cg'.
  assert (∀ n co, n ∈ co_names (update_co_names (Environment := env) n co))
    as Hreg.
  { intros n co. simpl. unfold in_names. case_bool_decide; simpl; [done|].
    apply elem_of_app. right. by apply list_elem_of_singleton. }
  split.
  - rewrite (proj1 (setup_globally_cached_stores_once (env := env)
                      "torch.nn" 7 ∅ example_session Hreg)).
    reflexivity.
  - rewrite (proj1 (setup_globally_cached_stores_once (env := env)
                      "torch-nn" 8 {["torch_nn" := 7]} cg' Hreg)).
    reflexivity.
Defined.

(** ** Closures *)

Section Closures.

Context {env : Environment}.
Variable cell_and_freevars : list string.

Lemma create_load_closure_ok (name : string) (cg : PyCodegen) :
  name ∈ cell_and_freevars →
  create_load_closure cell_and_freevars name cg =
    Ok (load_closure_instruction name) cg.
Proof.
  intros Hin. unfold create_load_closure, assert.
  by rewrite bool_decide_eq_true_2.
Qed.

(** The loop over the free variables gets past the known ones. *)
Lemma closure_loads_known (known vars : list string) (cg : PyCodegen) :
  Forall (λ var, var ∈ cell_and_freevars) known →
  (fix loads (vars : list string) : M unit :=
     match vars with
     | [] => ret tt
     | var :: vars =>
         assert (bool_decide (var ∈ cell_and_freevars)) "" >>
         (let* inst := create_load_closure cell_and_freevars var in
          output_append inst) >>
         loads vars
     end) (known ++ vars) cg =
  (fix loads (vars : list string) : M unit :=
     match vars with
     | [] => ret tt
     | var :: vars =>
         assert (bool_decide (var ∈ cell_and_freevars)) "" >>
         (let* inst := create_load_closure cell_and_freevars var in
          output_append inst) >>
         loads vars
     end) vars
    (set_output (_output cg ++ map load_closure_instruction known) cg).
Proof.
  intros Hknown. revert cg.
  induction Hknown as [|var known Hvar _ IH]; intros cg.
  - simpl. rewrite app_nil_r. by destruct cg.
  - simpl app. run_binds. unfold assert at 1.
    rewrite bool_decide_eq_true_2 by done. run_binds.
    rewrite create_load_closure_ok by done. run_binds.
    rewrite IH. simpl. by rewrite <- app_assoc.
Qed.

Lemma make_function_gen_fn_known (fn_name : string) (code : CodeType)
    (cg : PyCodegen) :
  Forall (λ var, var ∈ cell_and_freevars) (co_freevars code) →
  make_function_gen_fn cell_and_freevars fn_name code cg =
    Ok tt (set_output (_output cg ++ closure_instructions fn_name code) cg).
Proof.
  intros Hknown. unfold make_function_gen_fn. run_binds.
  rewrite <- (app_nil_r (co_freevars code)) at 1.
  rewrite closure_loads_known by done. run_binds.
  unfold create_load_const, closure_instructions. run_binds.
  destruct (version_lt sys_version_info (3, 11)),
    (version_ge sys_version_info (3, 13));
    run_binds; simpl; by rewrite <- ?app_assoc.
Qed.

(** X13. [make_function_with_closure] for a code object with free
    variables, all of them cells or free variables of the frame.  Without
    the null (no [push_null], or Python before 3.11) it appends the closure
    loads, the tuple, the code, the name before 3.11, and the function
    construction, followed by the rotation of depth [num_on_stack + 1].
    With the null it appends what the null helper makes of these same
    instructions, followed twice by the rotation of depth
    [num_on_stack + 2].  In both cases [top_of_stack] is [None] afterwards
    and nothing else changes.  The rotation is taken as [create_rot_n]
    provides it. *)
Theorem make_function_with_closure_emits (fn_name : string) (code : CodeType)
    (push_null : bool) (num_on_stack : nat) (rot : list Instruction)
    (cg : PyCodegen) :
  co_freevars code ≠ [] →
  Forall (λ var, var ∈ cell_and_freevars) (co_freevars code) →
  let null := push_null && version_ge sys_version_info (3, 11) in
  create_rot_n (num_on_stack + (if null then 2 else 1)) = Some rot →
  make_function_with_closure cell_and_freevars fn_name code push_null
    num_on_stack cg =
    Ok tt
      (set_top_of_stack None
         (set_output
            (_output cg
             ++ (if null
                 then bytecode_add_push_null
                        (closure_instructions fn_name code) ++ rot ++ rot
                 else closure_instructions fn_name code ++ rot))
            cg)).
Proof.
  intros Hne Hknown null Hrot. unfold make_function_with_closure.
  fold null. unfold assert at 1. rewrite bool_decide_eq_true_2 by done.
  run_binds. destruct null.
  - run_binds. rewrite add_push_null_unfold. cbv zeta.
    rewrite make_function_gen_fn_known by done.
    assert (∀ cg0, rot_n (num_on_stack + 2) cg0 = Ok rot cg0) as Hrot_n.
    { intros cg0. unfold rot_n. by rewrite Hrot. }
    destruct (version_lt sys_version_info (3, 13)),
      (version_ge sys_version_info (3, 13));
      simpl; rewrite take_app_length, drop_app_length;
      run_binds; rewrite Hrot_n; run_binds; rewrite Hrot_n; run_binds;
      unfold clear_tos; run_binds; simpl; by rewrite <- !app_assoc.
  - run_binds. rewrite make_function_gen_fn_known by done. run_binds.
    unfold rot_n. rewrite Hrot. run_binds. unfold clear_tos. run_binds.
    simpl. by rewrite <- !app_assoc.
Qed.

(** X14. [make_function_with_closure] raises [AssertionError] for a code
    object without free variables, before anything is emitted, and for a
    free variable that is not a cell or free variable of the frame.  In the
    second case the loads of the variables before it stay in the stream; on
    the path with the null before Python 3.13 [top_of_stack] has been
    cleared by then. *)
Theorem make_function_with_closure_asserts (fn_name : string)
    (code : CodeType) (push_null : bool) (num_on_stack : nat)
    (cg : PyCodegen) :
  (co_freevars code = [] →
   make_function_with_closure cell_and_freevars fn_name code push_null
     num_on_stack cg = Raise (AssertionError "") cg)
  ∧ (∀ known missing rest,
       co_freevars code = known ++ missing :: rest →
       Forall (λ var, var ∈ cell_and_freevars) known →
       missing ∉ cell_and_freevars →
       make_function_with_closure cell_and_freevars fn_name code push_null
         num_on_stack cg =
         Raise (AssertionError "")
           (set_output (_output cg ++ map load_closure_instruction known)
              (if push_null && version_ge sys_version_info (3, 11)
                  && version_lt sys_version_info (3, 13)
               then set_top_of_stack None cg else cg))).
Proof.
  split.
  - intros Hnil. unfold make_function_with_closure, assert at 1.
    by rewrite Hnil.
  - intros known missing rest Hvars Hknown Hmissing.
    assert (∀ cg0,
              make_function_gen_fn cell_and_freevars fn_name code cg0 =
                Raise (AssertionError "")
                  (set_output
                     (_output cg0 ++ map load_closure_instruction known) cg0))
      as Hgen.
    { intros cg0. unfold make_function_gen_fn. rewrite Hvars. run_binds.
      rewrite closure_loads_known by done. run_binds. unfold assert at 1.
      by rewrite bool_decide_eq_false_2. }
    unfold make_function_with_closure, assert at 1.
    rewrite bool_decide_eq_true_2
      by (rewrite Hvars; by destruct known).
    run_binds.
    destruct (push_null && version_ge sys_version_info (3, 11)).
    + run_binds. rewrite add_push_null_unfold. cbv zeta. rewrite Hgen.
      by destruct (version_lt sys_version_info (3, 13)).
    + run_binds. by rewrite Hgen.
Qed.

End Closures.

(** The closure over [a] and [b] on Python 3.12, pushed with its null: one
    [PUSH_NULL] in front of the construction, then the two swaps. *)
Lemma make_function_with_closure_emits_witness :
  let env := example_env (3, 12) in
  make_function_with_closure (env := env) ["a"; "b"] "fn" example_code true 0
    example_session =
    Ok tt
      (set_output
         [push_null_instruction;
          create_instruction "LOAD_CLOSURE" None (Some (NameArg "a"));
          create_instruction "LOAD_CLOSURE" None (Some (NameArg "b"));
          create_instruction "BUILD_TUPLE" (Some 2) None;
          create_instruction "LOAD_CONST" None (Some (ConstArg (PyObject 50)));
          create_instruction "MAKE_FUNCTION" (Some 8) None;
          create_instruction "SWAP" (Some 2) None;
          create_instruction "SWAP" (Some 2) None]
         example_session).
Proof.
  intros env.
  rewrite (make_function_with_closure_emits (env := env) ["a"; "b"] "fn"
             example_code true 0 [create_instruction "SWAP" (Some 2) None]
             example_session).
  - reflexivity.
  - discriminate.
  - repeat constructor.
  - reflexivity.
Defined.

(** ** Calls with keyword arguments *)

Lemma py_index_from_end (n k : nat) :
  0 < k ≤ n → py_index n (- Z.of_nat k) = Some (n - k).
Proof.
  intros Hk. unfold py_index.
  destruct (Z.ltb_spec (- Z.of_nat k) 0); [|lia].
  destruct (Z.ltb_spec (- Z.of_nat k + Z.of_nat n) 0); [lia|].
  destruct (Z.leb_spec (Z.of_nat n) (- Z.of_nat k + Z.of_nat n)); [lia|].
  simpl. f_equal. lia.
Qed.

Lemma py_index_before_start (n k : nat) :
  n < k → py_index n (- Z.of_nat k) = None.
Proof.
  intros Hk. unfold py_index.
  destruct (Z.ltb_spec (- Z.of_nat k) 0); [|lia].
  by destruct (Z.ltb_spec (- Z.of_nat k + Z.of_nat n) 0); [|lia].
Qed.

Lemma py_getitem_from_end {A} (pre suffix : list A) (x : A) :
  py_getitem (pre ++ x :: suffix) (- Z.of_nat (S (length suffix))) = Some x.
Proof.
  unfold py_getitem. rewrite py_index_from_end.
  - rewrite length_app. simpl.
    replace (length pre + S (length suffix) - S (length suffix))
      with (length pre) by lia.
    by rewrite list_lookup_middle.
  - rewrite length_app. simpl. lia.
Qed.

Lemma py_insert_from_end {A} (pre suffix : list A) (y : A) :
  suffix ≠ [] →
  py_insert (pre ++ suffix) (- Z.of_nat (length suffix)) y =
    pre ++ y :: suffix.
Proof.
  intros Hne. unfold py_insert.
  assert (0 < length suffix) by (destruct suffix; [done|simpl; lia]).
  destruct (Z.ltb_spec (- Z.of_nat (length suffix)) 0); [|lia].
  rewrite length_app.
  replace (Z.to_nat
             (Z.max 0 (- Z.of_nat (length suffix)
                       + Z.of_nat (length pre + length suffix))))
    with (length pre) by lia.
  by rewrite take_app_length, drop_app_length.
Qed.

Lemma py_setitem_last {A} (pre : list A) (x z : A) :
  py_setitem (pre ++ [x]) (-1) z = Some (pre ++ [z]).
Proof.
  unfold py_setitem.
  change (-1)%Z with (- Z.of_nat 1)%Z. rewrite py_index_from_end.
  - rewrite length_app. simpl.
    replace (length pre + 1 - 1) with (length pre + 0) by lia.
    by rewrite insert_app_r.
  - rewrite length_app. simpl. lia.
Qed.

Lemma version_ge_312_311 (v : nat * nat) :
  version_ge v (3, 12) = true → version_ge v (3, 11) = true.
Proof.
  destruct v as [major minor]. unfold version_ge, version_lt. simpl.
  destruct (Nat.ltb_spec major 3), (Nat.eqb_spec major 3),
    (Nat.ltb_spec minor 12), (Nat.ltb_spec minor 11); simpl; try done; lia.
Qed.

Lemma version_ge_313_312 (v : nat * nat) :
  version_ge v (3, 13) = true → version_ge v (3, 12) = true.
Proof.
  destruct v as [major minor]. unfold version_ge, version_lt. simpl.
  destruct (Nat.ltb_spec major 3), (Nat.eqb_spec major 3),
    (Nat.ltb_spec minor 13), (Nat.ltb_spec minor 12); simpl; try done; lia.
Qed.

(** X15. From Python 3.12 on, when [create_call_function] ends with a
    [CALL], [create_call_function_kw] keeps every instruction before that
    call as it is.  On 3.12 the [KW_NAMES] of the keyword names goes
    directly before the call, which stays.  From 3.13 on the constant load
    of the keyword names goes there and the call is replaced by [CALL_KW]
    with the same number of arguments. *)
Theorem create_call_function_kw_before_call `{env : Environment}
    (nargs : nat) (kw_names : list string) (push_null : bool)
    (pre : list Instruction) (call : Instruction) :
  version_ge sys_version_info (3, 12) = true →
  create_call_function nargs push_null = pre ++ [call] →
  opname call = "CALL" →
  create_call_function_kw nargs kw_names push_null =
    KwOk
      (pre
       ++ (if version_ge sys_version_info (3, 13)
           then [bytecode_create_load_const (PyTuple kw_names) true;
                 create_instruction "CALL_KW" (Some nargs) None]
           else [create_instruction "KW_NAMES" None
                   (Some (ConstArg (PyTuple kw_names)));
                 call])).
Proof.
  intros H312 Hout Hcall. unfold create_call_function_kw.
  rewrite (version_ge_312_311 _ H312), H312, Hout.
  assert (py_getitem (pre ++ [call]) (-1) = Some call) as Hget
    by apply (py_getitem_from_end pre [] call).
  assert (∀ y, py_insert (pre ++ [call]) (-1) y = pre ++ [y; call]) as Hins
    by (intros y; by apply (py_insert_from_end pre [call] y)).
  destruct (version_ge sys_version_info (3, 13)).
  - rewrite Hget, bool_decide_eq_true_2, Hins by done.
    change (pre ++ [?y; call]) with (pre ++ [y] ++ [call]).
    rewrite app_assoc, py_setitem_last. by rewrite <- app_assoc.
  - by rewrite Hget, bool_decide_eq_true_2, Hins.
Qed.

(** On the example helpers of Python 3.12 the call is one [CALL]. *)
Lemma create_call_function_kw_before_call_witness :
  create_call_function_kw (env := example_env (3, 12)) 2 ["k"] false =
    KwOk
      [create_instruction "KW_NAMES" None (Some (ConstArg (PyTuple ["k"])));
       create_instruction "CALL" (Some 2) None].
Proof.
  apply (create_call_function_kw_before_call (env := example_env (3, 12))
           2 ["k"] false [] (create_instruction "CALL" (Some 2) None));
    reflexivity.
Defined.

(** X16. On Python 3.11, when [create_call_function] ends with a [PRECALL]
    and one more instruction, [create_call_function_kw] puts the [KW_NAMES]
    of the keyword names directly before the [PRECALL] and changes nothing
    else. *)
Theorem create_call_function_kw_before_precall `{env : Environment}
    (nargs : nat) (kw_names : list string) (push_null : bool)
    (pre : list Instruction) (precall call : Instruction) :
  version_ge sys_version_info (3, 11) = true →
  version_ge sys_version_info (3, 12) = false →
  create_call_function nargs push_null = pre ++ [precall; call] →
  opname precall = "PRECALL" →
  create_call_function_kw nargs kw_names push_null =
    KwOk
      (pre
       ++ [create_instruction "KW_NAMES" None
             (Some (ConstArg (PyTuple kw_names)));
           precall; call]).
Proof.
  intros H311 H312 Hout Hprecall. unfold create_call_function_kw.
  assert (version_ge sys_version_info (3, 13) = false) as H313.
  { destruct (version_ge sys_version_info (3, 13)) eqn:H; [|done].
    apply version_ge_313_312 in H. congruence. }
  rewrite H313, H311, H312, Hout.
  assert (py_getitem (pre ++ [precall; call]) (-2) = Some precall) as Hget
    by apply (py_getitem_from_end pre [call] precall).
  assert (∀ y, py_insert (pre ++ [precall; call]) (-2) y
               = pre ++ [y; precall; call]) as Hins
    by (intros y; by apply (py_insert_from_end pre [precall; call] y)).
  by rewrite Hget, bool_decide_eq_true_2, Hins.
Qed.

Lemma create_call_function_kw_before_precall_witness :
  create_call_function_kw (env := example_env_precall) 2 ["k"] false =
    KwOk
      [create_instruction "KW_NAMES" None (Some (ConstArg (PyTuple ["k"])));
       create_instruction "PRECALL" (Some 2) None;
       create_instruction "CALL" (Some 2) None].
Proof.
  apply (create_call_function_kw_before_precall (env := example_env_precall)
           2 ["k"] false [] (create_instruction "PRECALL" (Some 2) None)
           (create_instruction "CALL" (Some 2) None));
    reflexivity.
Defined.

(** X17. From Python 3.11 on [create_call_function_kw] depends on the shape
    of what [create_call_function] answers.  With no instruction at all the
    subscript raises [IndexError]; so it does on 3.11 with a single
    instruction, where the next to last is read.  When the instruction that
    is read is not the expected [CALL] (from 3.12 on) or [PRECALL] (on
    3.11), the [assert] fails. *)
Theorem create_call_function_kw_needs_a_call `{env : Environment}
    (nargs : nat) (kw_names : list string) (push_null : bool) :
  version_ge sys_version_info (3, 11) = true →
  (create_call_function nargs push_null = [] →
   create_call_function_kw nargs kw_names push_null = KwIndexError)
  ∧ (∀ inst,
       version_ge sys_version_info (3, 12) = false →
       create_call_function nargs push_null = [inst] →
       create_call_function_kw nargs kw_names push_null = KwIndexError)
  ∧ (∀ pre last,
       version_ge sys_version_info (3, 12) = true →
       create_call_function nargs push_null = pre ++ [last] →
       opname last ≠ "CALL" →
       create_call_function_kw nargs kw_names push_null = KwAssertionError)
  ∧ (∀ pre precall last,
       version_ge sys_version_info (3, 12) = false →
       create_call_function nargs push_null = pre ++ [precall; last] →
       opname precall ≠ "PRECALL" →
       create_call_function_kw nargs kw_names push_null = KwAssertionError).
Proof.
  intros H311. unfold create_call_function_kw. rewrite H311. split_and!.
  - intros ->. by destruct (version_ge sys_version_info (3, 13)),
      (version_ge sys_version_info (3, 12)).
  - intros inst H312 ->.
    destruct (version_ge sys_version_info (3, 13)) eqn:H313.
    { apply version_ge_313_312 in H313. congruence. }
    by rewrite H312.
  - intros pre last H312 -> Hop.
    assert (py_getitem (pre ++ [last]) (-1) = Some last) as Hget
      by apply (py_getitem_from_end pre [] last).
    destruct (version_ge sys_version_info (3, 13));
      rewrite ?H312, Hget; by rewrite bool_decide_eq_false_2.
  - intros pre precall last H312 -> Hop.
    destruct (version_ge sys_version_info (3, 13)) eqn:H313.
    { apply version_ge_313_312 in H313. congruence. }
    rewrite H312.
    assert (py_getitem (pre ++ [precall; last]) (-2) = Some precall) as Hget
      by apply (py_getitem_from_end pre [last] precall).
    rewrite Hget. by rewrite bool_decide_eq_false_2.
Qed.

(** The example helpers of Python 3.11 answer a single [CALL]: asking for
    keyword arguments then fails on the subscript. *)
Lemma create_call_function_kw_needs_a_call_witness :
  create_call_function_kw (env := example_env (3, 11)) 2 ["k"] false =
    KwIndexError.
Proof.
  apply (proj1 (proj2 (create_call_function_kw_needs_a_call
                         (env := example_env (3, 11)) 2 ["k"] false
                         eq_refl))
           (create_instruction "CALL" (Some 2) None));
    reflexivity.
Defined.

(** ** Sequences of requests *)

(** X18. [foreach] over a list in two parts is [foreach] over the first
    part followed by [foreach] over the second: the requests are made in
    order, and when one of the first part raises, nothing of the second
    part is requested. *)
Theorem foreach_app (exec : CodegenOp → M unit)
    (items items' : list (Source + VariableTracker)) (cg : PyCodegen) :
  foreach exec (items ++ items') cg =
    match foreach exec items cg with
    | Ok _ cg' => foreach exec items' cg'
    | Raise e cg' => Raise e cg'
    | OutOfFuel => OutOfFuel
    end.
Proof.
  revert cg. induction items as [|i items IH]; intros cg; [done|].
  simpl. rewrite !bind_eq.
  destruct (self_call exec i true cg) as [[] cg'| |]; [|done..].
  apply IH.
Qed.

Lemma set_value_from_source_same cg :
  set_value_from_source (value_from_source cg) cg = cg.
Proof. by destruct cg. Qed.

(** X20. [restore_stack] with [value_from_source=True], its default, is
    [foreach]: same result, same session, also when a value raises.  This
    rests on no request changing the flag. *)
Theorem restore_stack_default_is_foreach `{env : Environment}
    (fuel : nat) (stack_values : list (Source + VariableTracker))
    (cg : PyCodegen) :
  restore_stack (exec fuel) stack_values true cg =
    foreach (exec fuel) stack_values cg.
Proof.
  unfold restore_stack. run_binds. unfold try_finally.
  rewrite andb_true_r, set_value_from_source_same.
  pose proof (preserves_foreach (exec fuel) (exec_preserves fuel)
                stack_values cg) as Hle.
  destruct (foreach (exec fuel) stack_values cg) as [[] cg'|e cg'|];
    [| |done]; destruct Hle as [_ _ _ _ Hflag _ _ _];
    by rewrite <- Hflag, set_value_from_source_same.
Qed.


(** X22. In the last branch of the dispatcher only [NotImplementedError] is
    turned into the error of [unimplemented].  Any other exception of
    [reconstruct], the [AssertionError] for a [reconstruct] that returns
    something included, leaves the dispatcher as it is, in the session as
    [reconstruct] left it: nothing is cached and [top_of_stack] is not
    set. *)
Theorem reconstruct_errors_pass_through `{env : Environment}
    (exec : CodegenOp → M unit) (value : VariableTracker)
    (allow_cache : bool) (e : Exn) (cg cg' : PyCodegen) :
  allow_cache && top_of_stack_is cg value = false →
  (if allow_cache then tempvars_get cg value else None) = None →
  source_for_codegen cg value allow_cache = None →
  safe_python_constant value = None →
  vt_class value = OtherVariable
  ∨ vt_class value = FunctionDecoratedByContextlibContextManagerVariable →
  call_reconstruct exec (inr value)
    (set_uses (<[vt_id value := S (default 0 (uses cg !! vt_id value))]>
                 (uses cg)) cg)
    = Raise e cg' →
  e ≠ NotImplementedError →
  __call__ exec (inr value) allow_cache cg = Raise e cg'.
Proof.
  intros Htos Htmp Hsrc Hconst Hclass Hrec He.
  unfold __call__, bind, get. simpl. rewrite Htos, Htmp, Hsrc.
  unfold codegen_by_kind. rewrite Hconst.
  destruct Hclass as [-> | ->];
    unfold codegen_reconstruct, bind, modify, try_except_NotImplementedError;
    cbv beta iota; rewrite Hrec; by destruct e.
Qed.

(** A [reconstruct] that returns a value: its instruction is in the stream,
    the request fails with the assertion, and although the value is
    registered for a temp slot, none is assigned. *)
Lemma reconstruct_errors_pass_through_witness :
  let env := example_env (3, 12) in
  let cg :=
    set_tempvars ({[17 := None]} : gmap nat (option string)) example_session in
  __call__ (env := env) (exec (env := env) 3) (inr example_returns_value)
    true cg =
    Raise (AssertionError "reconstruct!=None BrokenVariable()")
      (set_top_of_stack None
         (set_output [create_instruction "BUILD_LIST" (Some 0) None]
            (set_uses ({[17 := 1]} : gmap nat nat) cg))).
Proof.
  intros env cg.
  apply (reconstruct_errors_pass_through (env := env) (exec (env := env) 3)
           example_returns_value true
           (AssertionError "reconstruct!=None BrokenVariable()") cg);
    first [reflexivity | left; reflexivity | discriminate].
Defined.

(** ** Loading a function by name *)

(** X19. [load_function_name] answers its instructions to the caller and
    emits nothing: the stream and [top_of_stack] are untouched, only the
    name is registered by [update_co_names].  Without the null (no
    [push_null], or Python before 3.11) it answers the [LOAD_GLOBAL]
    followed by the rotation of depth [num_on_stack + 1].  With the null it
    answers what the null helper makes of the [LOAD_GLOBAL], followed twice
    by the rotation of depth [num_on_stack + 2] when something is on the
    stack, and by nothing when [num_on_stack] is 0: then no rotation is
    asked for at all. *)
Theorem load_function_name_answers `{env : Environment}
    (fn_name : string) (push_null : bool) (num_on_stack : nat)
    (rot : list Instruction) (cg : PyCodegen) :
  (∀ n co, n ∈ co_names (update_co_names n co)) →
  let null := push_null && version_ge sys_version_info (3, 11) in
  let load := create_instruction "LOAD_GLOBAL" None (Some (NameArg fn_name)) in
  (null && bool_decide (num_on_stack = 0) = false →
   create_rot_n (num_on_stack + (if null then 2 else 1)) = Some rot) →
  load_function_name fn_name push_null num_on_stack cg =
    Ok (if null
        then bytecode_add_push_null [load]
             ++ (if bool_decide (num_on_stack = 0) then [] else rot ++ rot)
        else load :: rot)
       (set_code_options (update_co_names fn_name (code_options cg)) cg).
Proof.
  intros Hreg null load Hrot. unfold load_function_name. fold null.
  assert (∀ cg0,
            create_load_global fn_name true cg0 =
              Ok load
                (set_code_options
                   (update_co_names fn_name (code_options cg0)) cg0))
    as Hload.
  { intros cg0. unfold create_load_global. run_binds. unfold assert. simpl.
    by rewrite bool_decide_eq_true_2 by apply Hreg. }
  destruct null; simpl in Hrot; run_binds; rewrite Hload; run_binds.
  - destruct (decide (num_on_stack = 0)) as [Hzero|Hpos].
    + rewrite (bool_decide_eq_false_2 (0 < num_on_stack)) by lia.
      rewrite (bool_decide_eq_true_2 (num_on_stack = 0)) by done.
      run_binds. by rewrite app_nil_r.
    + rewrite (bool_decide_eq_true_2 (0 < num_on_stack)) by lia.
      rewrite (bool_decide_eq_false_2 (num_on_stack = 0)) in * by done.
      unfold rot_n. rewrite Hrot by done. by run_binds.
  - unfold rot_n. rewrite Hrot by done. by run_binds.
Qed.

(** On Python 3.12, with nothing on the stack, the function is loaded behind
    its null and not rotated. *)
Lemma load_function_name_answers_witness :
  let env := example_env (3, 12) in
  load_function_name (env := env) "fn" true 0 example_session =
    Ok [push_null_instruction;
        create_instruction "LOAD_GLOBAL" None (Some (NameArg "fn"))]
       (set_code_options (Build_CodeOptions ["x"; "graph_out_0"] ["fn"])
          example_session).
Proof.
  intros env.
  rewrite (load_function_name_answers (env := env) "fn" true 0 []
             example_session).
  - reflexivity.
  - intros n co. simpl. unfold in_names. case_bool_decide; simpl; [done|].
    apply elem_of_app. right. by apply list_elem_of_singleton.
  - discriminate.
Defined.
